(** * Lab 07: SVMs on extended MNIST, the notebook's own code

    A shallow embedding of the code cells of [lab07_emnist_partial.ipynb]:
    the loader [load_emnist] and the cells that call it, the plotting
    helper [plt_digit], the plotting cell, and the constants of the
    filtering and subsampling cells.  NumPy, SciPy and Matplotlib are outside the repository; the part
    of their behaviour that the cells rely on (indexing, [reshape],
    [astype], [subplot]'s argument check) is modelled in the modules [Np]
    and [Plt] below.

    Python exceptions are values of [exn]; a computation that may raise
    returns a [res].  Cells and functions that print or plot run in the
    monad [M], which threads the interpreter's world (files, globals,
    standard output, the current figure). *)

From stdpp Require Import base decidable option list strings gmap fin_maps pretty sorting.

Local Open Scope string_scope.
Local Open Scope list_scope.
Local Open Scope Z_scope.

(** ** Exceptions and results *)

Inductive exn : Set :=
  | FileNotFoundError
  | MatReadError
  | KeyError
  | IndexError
  | ValueError
  | TypeError
  | AttributeError
  | NameError.

#[global] Instance exn_eq_dec : EqDecision exn.
Proof. solve_decision. Defined.

Inductive res (A : Type) : Type :=
  | Ok (a : A)
  | Raise (e : exn).
Arguments Ok {A} a.
Arguments Raise {A} e.

(** Chaining of calls that may raise: the first exception ends the chain. *)
Definition and_then {A B} (r : res A) (f : A → res B) : res B :=
  match r with
  | Ok a => f a
  | Raise e => Raise e
  end.

Notation "r |> f" := (and_then r f) (at level 50, left associativity).

Definition is_ok {A} (r : res A) : bool :=
  match r with Ok _ => true | Raise _ => false end.

(** ** NumPy values, as [scipy.io.loadmat] hands them out *)

Module Np.

(** Element types of the numeric arrays met in the notebook: the pixel and
    label arrays of the data files, and the result of [astype(int)].
    Numeric data are integers throughout. *)
Inductive dtype : Set := UInt8 | Int64.

#[global] Instance dtype_eq_dec : EqDecision dtype.
Proof. solve_decision. Defined.

(** [NumArr dt shape data]: a numeric [ndarray], [data] in row-major order.
    [StructArr shape recs]: an [ndarray] of MATLAB struct records, each
    record the list of its field values in declaration order.
    [Void fields]: one struct record ([numpy.void]).
    [Num z]: a NumPy integer scalar. *)
#[warnings="-register-all"]
Inductive value : Type :=
  | NumArr (dt : dtype) (shape : list nat) (data : list Z)
  | StructArr (shape : list nat) (recs : list (list value))
  | Void (fields : list value)
  | Num (z : Z).

(** Number of elements of an array of the given shape. *)
Definition size_of (shape : list nat) : nat := foldr Nat.mul 1%nat shape.

(** The [k]-th block along the first axis of row-major [data], the
    remaining axes being [ds]. *)
Definition block {A} (ds : list nat) (k : nat) (data : list A) : list A :=
  take (size_of ds) (drop (k * size_of ds) data).

(** [v[k]] for a non-negative integer [k]. *)
Definition getitem (v : value) (k : nat) : res value :=
  match v with
  | NumArr dt (d :: ds) data =>
      if decide (k < d)%nat then
        match ds with
        | [] => match data !! k with
                | Some z => Ok (Num z)
                | None => Raise IndexError
                end
        | _ => Ok (NumArr dt ds (block ds k data))
        end
      else Raise IndexError
  | StructArr (d :: ds) recs =>
      if decide (k < d)%nat then
        match ds with
        | [] => match recs !! k with
                | Some fs => Ok (Void fs)
                | None => Raise IndexError
                end
        | _ => Ok (StructArr ds (block ds k recs))
        end
      else Raise IndexError
  | Void fields =>
      match fields !! k with
      | Some f => Ok f
      | None => Raise IndexError
      end
  | NumArr _ [] _ | StructArr [] _ | Num _ => Raise IndexError
  end.

(** [v[:]]: the whole array along its first axis. *)
Definition slice_all (v : value) : res value :=
  match v with
  | NumArr _ (_ :: _) _ | StructArr (_ :: _) _ => Ok v
  | _ => Raise IndexError
  end.

(** [v.shape]; scalars have the empty shape. *)
Definition shape (v : value) : list nat :=
  match v with
  | NumArr _ sh _ | StructArr sh _ => sh
  | Void _ | Num _ => []
  end.

(** [v.shape[0]]. *)
Definition shape0 (v : value) : res nat :=
  match shape v with
  | d :: _ => Ok d
  | [] => Raise IndexError
  end.

(** [v.size]. *)
Definition size (v : value) : nat := size_of (shape v).

(** [v.reshape(newshape)]: the element count must not change. *)
Definition reshape (v : value) (newshape : list nat) : res value :=
  if decide (size v = size_of newshape) then
    match v with
    | NumArr dt _ data => Ok (NumArr dt newshape data)
    | StructArr _ recs => Ok (StructArr newshape recs)
    | Void fs => Ok (StructArr newshape [fs])
    | Num z => Ok (NumArr Int64 newshape [z])
    end
  else Raise ValueError.

(** [v.astype(int)]. *)
Definition astype_int (v : value) : res value :=
  match v with
  | NumArr _ sh data => Ok (NumArr Int64 sh data)
  | Num z => Ok (Num z)
  | StructArr _ _ | Void _ => Raise TypeError
  end.

(** [v.T] of a two-dimensional array. *)
Definition column {A} (ncol j : nat) (data : list A) (nrow : nat) : list A :=
  omap (λ i, data !! (i * ncol + j)%nat) (seq 0 nrow).

Definition transpose2 {A} (nrow ncol : nat) (data : list A) : list A :=
  mjoin ((λ j, column ncol j data nrow) <$> seq 0 ncol).

Definition T (v : value) : value :=
  match v with
  | NumArr dt [r; c] data => NumArr dt [c; r] (transpose2 r c data)
  | StructArr [r; c] recs => StructArr [c; r] (transpose2 r c recs)
  | _ => v
  end.

End Np.

(** ** The interpreter's world and the monad of cells *)

(** One call of a [matplotlib.pyplot] function on the current figure. *)
Inductive plot_cmd : Type :=
  | Subplot (nrows ncols index : Z)
  | Imshow (img : Np.value) (cmap : string)
  | Xticks (ticks : list Z)
  | Yticks (ticks : list Z)
  | Title (s : string).

Record world : Type := World {
  files : gmap string string;      (* path to file contents *)
  globals : gmap string Np.value;  (* the notebook's global variables *)
  stdout : list string;            (* printed lines, oldest first *)
  figure : list plot_cmd           (* pyplot calls, oldest first *)
}.

Definition M (A : Type) : Type := world → res A * world.

Definition ret {A} (a : A) : M A := λ w, (Ok a, w).

(** Sequencing of statements: an exception ends the run and leaves the
    world as the failing statement left it. *)
Definition bind {A B} (m : M A) (f : A → M B) : M B := λ w,
  match m w with
  | (Ok a, w') => f a w'
  | (Raise e, w') => (Raise e, w')
  end.

Notation "x <- m ;; k" := (bind m (λ x, k))
  (at level 100, m at next level, right associativity).
Notation "m ;;; k" := (bind m (λ _, k))
  (at level 100, right associativity).

Definition raise {A} (e : exn) : M A := λ w, (Raise e, w).

(** A library call that touches nothing of the world. *)
Definition lift {A} (r : res A) : M A := λ w, (r, w).

Definition print (line : string) : M unit := λ w,
  (Ok (), World (files w) (globals w) (stdout w ++ [line]) (figure w)).

Definition plot (c : plot_cmd) : M unit := λ w,
  (Ok (), World (files w) (globals w) (stdout w) (figure w ++ [c])).

(** [name = v] at the top level of a cell. *)
Definition set_global (name : string) (v : Np.value) : M unit := λ w,
  (Ok (), World (files w) (<[name := v]> (globals w)) (stdout w) (figure w)).

(** [a, b, c, d = vals] at the top level of a cell. *)
Definition unpack4 (a b c d : string) (vals : list Np.value) : M unit :=
  match vals with
  | [va; vb; vc; vd] =>
      set_global a va ;;; set_global b vb ;;; set_global c vc ;;; set_global d vd
  | _ => raise ValueError
  end.

(** ** Cell 6: [load_emnist] *)

(** [d[key]] on the dictionary returned by [loadmat]. *)
Definition dict_getitem (d : gmap string Np.value) (key : string) : res Np.value :=
  match d !! key with
  | Some v => Ok v
  | None => Raise KeyError
  end.

(** [v[k]] and [v.reshape(n)], with the receiver last, for chains. *)
Definition item (k : nat) (v : Np.value) : res Np.value := Np.getitem v k.
Definition reshape_to (n : nat) (v : Np.value) : res Np.value := Np.reshape v [n].

(** ["%d training samples, %d test samples loaded" % (ntr, nts)] *)
Definition loaded_message (ntr nts : nat) : string :=
  (pretty ntr ++ " training samples, " ++ pretty nts ++ " test samples loaded")%string.

(** [s.endswith(suffix)] *)
Definition ends_with (suffix s : string) : bool :=
  (String.length suffix <=? String.length s)%nat
  && String.eqb (String.substring (String.length s - String.length suffix)
                                  (String.length suffix) s) suffix.

(** How [scipy.io.loadmat] opens [file_path] (with [appendmat], its
    default): the path as given, and when that cannot be opened and the
    path does not end in [.mat], the path with [.mat] appended. *)
Definition open_file (fs : gmap string string) (file_path : string) : option string :=
  match fs !! file_path with
  | Some contents => Some contents
  | None =>
      if ends_with ".mat" file_path then None
      else fs !! (file_path ++ ".mat")%string
  end.

Section Loader.

(** The MATLAB file parser of SciPy, from the bytes of a file to the
    dictionary of its variables. *)
Variable parse_mat : string → res (gmap string Np.value).

(** [scipy.io.loadmat(file_path)]: opens the file as [open_file] does,
    reads it, never writes. *)
Definition loadmat (file_path : string) : M (gmap string Np.value) := λ w,
  match open_file (files w) file_path with
  | Some contents => (parse_mat contents, w)
  | None => (Raise FileNotFoundError, w)
  end.

Definition load_emnist (file_path : string) : M (list Np.value) :=
  (* Load the MATLAB file *)
  mat <- loadmat file_path ;;
  (* Get the training data *)
  Xtr <- lift (dict_getitem mat "dataset" |> item 0 |> item 0 |> item 0 |> item 0
               |> item 0 |> item 0 |> Np.slice_all) ;;
  ntr <- lift (Np.shape0 Xtr) ;;
  ytr <- lift (dict_getitem mat "dataset" |> item 0 |> item 0 |> item 0 |> item 0
               |> item 0 |> item 1 |> Np.slice_all |> reshape_to ntr |> Np.astype_int) ;;
  (* Get the test data *)
  Xts <- lift (dict_getitem mat "dataset" |> item 0 |> item 0 |> item 1 |> item 0
               |> item 0 |> item 0 |> Np.slice_all) ;;
  nts <- lift (Np.shape0 Xts) ;;
  yts <- lift (dict_getitem mat "dataset" |> item 0 |> item 0 |> item 1 |> item 0
               |> item 0 |> item 1 |> Np.slice_all |> reshape_to nts |> Np.astype_int) ;;
  print (loaded_message ntr nts) ;;;
  ret [Xtr; Xts; ytr; yts].

(** The default value of [file_path]. *)
Definition load_emnist_default : string := "matlab/emnist-digits.mat".

(** Cells 8 and 10: the calls, whose results are bound to four globals. *)
Definition cell_8 : M unit :=
  r <- load_emnist load_emnist_default ;;
  unpack4 "Xtr_dig" "Xts_dig" "ytr_dig" "yts_dig" r.

Definition cell_10 : M unit :=
  r <- load_emnist "matlab/emnist-letters.mat" ;;
  unpack4 "Xtr_let" "Xts_let" "ytr_let" "yts_let" r.

End Loader.

(** The array stored in field [f] of partition [p] of the file's [dataset]
    variable: [mat['dataset'][0][0][p][0][0][f][:]].  Partition 0 is the
    training split and partition 1 the test split; field 0 holds the
    features and field 1 the labels. *)
Definition partition_field (mat : gmap string Np.value) (p f : nat) : res Np.value :=
  dict_getitem mat "dataset" |> item 0 |> item 0 |> item p |> item 0
  |> item 0 |> item f |> Np.slice_all.

(** The layout of an EMNIST file as [loadmat] returns it: [dataset] is a
    1-by-1 struct array whose first two fields are the training and the test
    partition, each again a 1-by-1 struct array whose first two fields are
    the feature array and the label array. *)
Inductive emnist_layout (mat : gmap string Np.value)
    (Xtr Ltr Xts Lts : Np.value) : Prop :=
  | Emnist_layout (rest rest_tr rest_ts : list Np.value)
      (more more_tr more_ts : list (list Np.value)) :
      mat !! "dataset" =
        Some (Np.StructArr [1; 1]%nat
               ((Np.StructArr [1; 1]%nat ((Xtr :: Ltr :: rest_tr) :: more_tr)
                 :: Np.StructArr [1; 1]%nat ((Xts :: Lts :: rest_ts) :: more_ts)
                 :: rest) :: more)) →
      emnist_layout mat Xtr Ltr Xts Lts.

(** [y] is a one-dimensional integer vector with one entry per row of [X]. *)
Definition label_vector_for (y X : Np.value) : Prop :=
  ∃ n data rest, y = Np.NumArr Np.Int64 [n] data ∧ Np.shape X = n :: rest.

(** The call returns the four arrays, each label vector matching its
    feature array. *)
Definition returns_matching_arrays (parse_mat : string → res (gmap string Np.value))
    (file_path : string) (w : world) : Prop :=
  ∃ Xtr Xts ytr yts w',
    load_emnist parse_mat file_path w = (Ok [Xtr; Xts; ytr; yts], w')
    ∧ label_vector_for ytr Xtr ∧ label_vector_for yts Xts.

(** The library calls of [load_emnist], in the order they are made, and what
    it is for one of them to be the first to fail with exception [e] when
    the function is run on [file_path] in world [w]. *)
Inductive first_failure (parse_mat : string → res (gmap string Np.value))
    (file_path : string) (w : world) (e : exn) : Prop :=
  | Fail_open :
      open_file (files w) file_path = None → e = FileNotFoundError →
      first_failure parse_mat file_path w e
  | Fail_parse contents :
      open_file (files w) file_path = Some contents → parse_mat contents = Raise e →
      first_failure parse_mat file_path w e
  | Fail_Xtr contents mat :
      open_file (files w) file_path = Some contents → parse_mat contents = Ok mat →
      partition_field mat 0 0 = Raise e →
      first_failure parse_mat file_path w e
  | Fail_ntr contents mat Xtr :
      open_file (files w) file_path = Some contents → parse_mat contents = Ok mat →
      partition_field mat 0 0 = Ok Xtr → Np.shape0 Xtr = Raise e →
      first_failure parse_mat file_path w e
  | Fail_ytr contents mat Xtr ntr :
      open_file (files w) file_path = Some contents → parse_mat contents = Ok mat →
      partition_field mat 0 0 = Ok Xtr → Np.shape0 Xtr = Ok ntr →
      partition_field mat 0 1 |> reshape_to ntr |> Np.astype_int = Raise e →
      first_failure parse_mat file_path w e
  | Fail_Xts contents mat Xtr ntr ytr :
      open_file (files w) file_path = Some contents → parse_mat contents = Ok mat →
      partition_field mat 0 0 = Ok Xtr → Np.shape0 Xtr = Ok ntr →
      partition_field mat 0 1 |> reshape_to ntr |> Np.astype_int = Ok ytr →
      partition_field mat 1 0 = Raise e →
      first_failure parse_mat file_path w e
  | Fail_nts contents mat Xtr ntr ytr Xts :
      open_file (files w) file_path = Some contents → parse_mat contents = Ok mat →
      partition_field mat 0 0 = Ok Xtr → Np.shape0 Xtr = Ok ntr →
      partition_field mat 0 1 |> reshape_to ntr |> Np.astype_int = Ok ytr →
      partition_field mat 1 0 = Ok Xts → Np.shape0 Xts = Raise e →
      first_failure parse_mat file_path w e
  | Fail_yts contents mat Xtr ntr ytr Xts nts :
      open_file (files w) file_path = Some contents → parse_mat contents = Ok mat →
      partition_field mat 0 0 = Ok Xtr → Np.shape0 Xtr = Ok ntr →
      partition_field mat 0 1 |> reshape_to ntr |> Np.astype_int = Ok ytr →
      partition_field mat 1 0 = Ok Xts → Np.shape0 Xts = Ok nts →
      partition_field mat 1 1 |> reshape_to nts |> Np.astype_int = Raise e →
      first_failure parse_mat file_path w e.

(** ** Matplotlib calls used by the notebook *)

Module Plt.

(** [plt.imshow(img, cmap=...)]: the image must be a numeric array of two
    dimensions. *)
Definition imshow (img : Np.value) (cmap : string) : M unit :=
  match img with
  | Np.NumArr _ [_; _] _ => plot (Imshow img cmap)
  | _ => raise TypeError
  end.

Definition xticks (ticks : list Z) : M unit := plot (Xticks ticks).
Definition yticks (ticks : list Z) : M unit := plot (Yticks ticks).
Definition title (s : string) : M unit := plot (Title s).

(** [plt.subplot(nrows, ncols, index)]: the grid must have at least one
    row and one column, and the index lies in [1 .. nrows*ncols]. *)
Definition subplot (nrows ncols index : Z) : M unit :=
  if decide (0 < nrows ∧ 0 < ncols ∧ 1 ≤ index ≤ nrows * ncols)
  then plot (Subplot nrows ncols index)
  else raise ValueError.

End Plt.

(** ** Cell 12: [plt_digit] *)

(** A Python object passed to [plt_digit]: [None] or a NumPy value. *)
Inductive pyobj : Type :=
  | PNone
  | PVal (v : Np.value).

(** [x.reshape((nrow, ncol))] *)
Definition obj_reshape (x : pyobj) (nrow ncol : nat) : res Np.value :=
  match x with
  | PVal v => Np.reshape v [nrow; ncol]
  | PNone => Raise AttributeError
  end.

(** ['%d' % y]: an integer, or an array that holds a single integer, is
    written in decimal. *)
Definition format_d (y : pyobj) : res string :=
  match y with
  | PVal (Np.Num z) => Ok (pretty z)
  | PVal (Np.NumArr _ sh [z]) =>
      if decide (Np.size_of sh = 1%nat) then Ok (pretty z) else Raise TypeError
  | _ => Raise TypeError
  end.

(** The test [if y != None:].  [None] compares equal, an integer does not;
    an array is compared entry by entry, and the truth value of the outcome
    is that of its single entry, false for no entry, and an error for more
    than one entry. *)
Definition ne_None (y : pyobj) : res bool :=
  match y with
  | PNone => Ok false
  | PVal (Np.Num _) | PVal (Np.Void _) => Ok true
  | PVal (Np.NumArr _ sh _) | PVal (Np.StructArr sh _) =>
      match Np.size_of sh with
      | 0%nat => Ok false
      | 1%nat => Ok true
      | _ => Raise ValueError
      end
  end.

Definition plt_digit (x : pyobj) (y : pyobj) : M unit :=
  let nrow := 28%nat in
  let ncol := 28%nat in
  xsq <- lift (obj_reshape x nrow ncol) ;;
  Plt.imshow (Np.T xsq) "Greys_r" ;;;
  Plt.xticks [] ;;;
  Plt.yticks [] ;;;
  labelled <- lift (ne_None y) ;;
  if labelled then
    s <- lift (format_d y) ;;
    Plt.title s
  else ret ().

(** A call [plt_digit(args...)] with positional arguments only: [x] is
    required, [y] defaults to [None]. *)
Definition call_plt_digit (args : list pyobj) : M unit :=
  match args with
  | [x] => plt_digit x PNone
  | [x; y] => plt_digit x y
  | _ => raise TypeError
  end.

(** ** Cell 14: the plotting loop *)

(** [range(n)] *)
Definition range (n : nat) : list Z := Z.of_nat <$> seq 0 n.

(** [for x in xs: body(x)] *)
Fixpoint for_each {A} (xs : list A) (body : A → M unit) : M unit :=
  match xs with
  | [] => ret ()
  | x :: rest => body x ;;; for_each rest body
  end.

(** [for name in xs: body(name)] at the top level of a cell: each turn
    first binds the global [name] to the current integer. *)
Definition for_in (name : string) (xs : list Z) (body : Z → M unit) : M unit :=
  for_each xs (λ x, set_global name (Np.Num x) ;;; body x).

Section PlottingCell.

(** [plt.subplot], whatever it does with its arguments. *)
Variable subplot : Z → Z → Z → M unit.

Definition cell_14 : M unit :=
  for_in "i" (range 2) (λ i,
    for_in "j" (range 4) (λ j,
      subplot i j (i * 4 + j) ;;;
      call_plt_digit [])).

End PlottingCell.

(** The world once the loops of cell 14 have bound [i] and [j] for their
    first turn. *)
Definition first_turn (w : world) : world :=
  World (files w) (<["j" := Np.Num 0]> (<["i" := Np.Num 0]> (globals w)))
        (stdout w) (figure w).

(** The world once [plt_digit] has drawn [img] and emptied the ticks. *)
Definition drawn (img : Np.value) (w : world) : world :=
  World (files w) (globals w) (stdout w)
        (figure w ++ [Imshow img "Greys_r"; Xticks []; Yticks []]).

(** The library calls of [plt_digit], in the order they are made, and what
    it is for one of them to be the first to fail with exception [e],
    leaving the world [w']. *)
Inductive plt_digit_failure (x y : pyobj) (w : world) (e : exn) (w' : world) : Prop :=
  | Fail_reshape :
      obj_reshape x 28 28 = Raise e → w' = w →
      plt_digit_failure x y w e w'
  | Fail_imshow xsq :
      obj_reshape x 28 28 = Ok xsq →
      Plt.imshow (Np.T xsq) "Greys_r" w = (Raise e, w') →
      plt_digit_failure x y w e w'
  | Fail_test xsq :
      obj_reshape x 28 28 = Ok xsq →
      fst (Plt.imshow (Np.T xsq) "Greys_r" w) = Ok () →
      ne_None y = Raise e → w' = drawn (Np.T xsq) w →
      plt_digit_failure x y w e w'
  | Fail_format xsq :
      obj_reshape x 28 28 = Ok xsq →
      fst (Plt.imshow (Np.T xsq) "Greys_r" w) = Ok () →
      ne_None y = Ok true → format_d y = Raise e → w' = drawn (Np.T xsq) w →
      plt_digit_failure x y w e w'.

(** An operation that, whenever it raises, leaves the world as it found it. *)
Definition leaves_no_trace {A} (op : M A) : Prop :=
  ∀ w e w', op w = (Raise e, w') → w' = w.

(** ** Cells 18 to 39: the data preparation steps

    The sample axis of a feature array is a list of rows, a label vector a
    list of integers.  The code cells keep the constants below and leave the
    array expressions to be filled in; those are modelled from the text that
    introduces each cell. *)

(** Cell 18. *)
Definition remove_list : list Z := [9; 12; 15].

(** Cell 20: number of training and test digits and letters. *)
Definition ntr_dig : nat := 5000.
Definition ntr_let : nat := 1000.
Definition nts_dig : nat := 5000.
Definition nts_let : nat := 1000.

(** Modelled from the spec: the expression that filters the letter arrays is
    absent from cell 18 (a TODO line); the text before the cell asks for the
    samples [i] with [ytr_let[i] == 9, 12, 15] to be removed, by broadcasting
    the labels against [remove_list] and [np.all(..., axis=1)].
    [unambiguous l] is one row of [np.all(y[:,None] != remove_list[None,:],
    axis=1)], and [keep_mask y] the whole mask. *)
Definition unambiguous (l : Z) : bool :=
  forallb (λ r, negb (l =? r)) remove_list.

(** Modelled from the spec: the mask of the filtering step, absent from
    cell 18: one entry per label, true where the sample is kept. *)
Definition keep_mask (y : list Z) : list bool := unambiguous <$> y.

(** Modelled from the spec: NumPy's boolean-mask indexing [xs[mask]] along
    the first axis, which the filtering step applies; the mask must be as
    long as the axis. *)
Fixpoint select {A} (mask : list bool) (xs : list A) : list A :=
  match mask, xs with
  | b :: mask', x :: xs' => if b then x :: select mask' xs' else select mask' xs'
  | _, _ => []
  end.

(** Modelled from the spec: [xs[mask]] with NumPy's length check, which
    raises [IndexError] when the mask and the axis differ in length. *)
Definition mask_select {A} (mask : list bool) (xs : list A) : res (list A) :=
  if decide (length mask = length xs) then Ok (select mask xs) else Raise IndexError.

(** Modelled from the spec: the filtering step of cell 18, absent from the
    code: [X_rem, y_rem = X[mask], y[mask]] for the mask above. *)
Definition remove_ambiguous {A} (X : list A) (y : list Z) : res (list A * list Z) :=
  mask_select (keep_mask y) X |> λ X_rem,
  mask_select (keep_mask y) y |> λ y_rem,
  Ok (X_rem, y_rem).

(** Modelled from the spec: NumPy's integer-array indexing [xs[I]] along the
    first axis, which the subsampling step applies. *)
Fixpoint take_rows {A} (xs : list A) (I : list nat) : res (list A) :=
  match I with
  | [] => Ok []
  | i :: rest =>
      match xs !! i with
      | Some x => take_rows xs rest |> λ tl, Ok (x :: tl)
      | None => Raise IndexError
      end
  end.

(** Modelled from the spec: the subsampling step of cell 20, absent from the
    code (TODO lines): [n] random samples of [X] and [y], the same ones of
    both.  [perm] is the outcome of [np.random.permutation(X.shape[0])]. *)
Definition subsample {A} (n : nat) (perm : list nat) (X : list A) (y : list Z)
  : res (list A * list Z) :=
  let I := take n perm in
  take_rows X I |> λ X1,
  take_rows y I |> λ y1,
  Ok (X1, y1).

(** Modelled from the spec: the merge step of cell 22, absent from the code
    (TODO lines): [X] stacks the digit rows on the letter rows, and the label
    is [y1_dig[i]] for a digit sample and 10 for a letter sample. *)
Definition merge {A} (X1_dig X1_let : list A) (y1_dig y1_let : list Z)
  : list A * list Z :=
  (X1_dig ++ X1_let, y1_dig ++ ((λ _, 10) <$> y1_let)).

(** The eleven classes of the merged problem: the digits and the class 10
    of all letters. *)
Definition classes : gset Z := list_to_set (range 11).

(** Modelled from the spec: the combined data [X], [y] of cell 37, absent
    from the code (TODO lines): the training rows first, then the test rows. *)
Definition combine {A} (Xtr1 Xts1 : list A) (ytr yts : list Z) : list A * list Z :=
  (Xtr1 ++ Xts1, ytr ++ yts).

(** Modelled from the spec: the vector [test_fold] of cell 39, absent from
    the code (a TODO line): -1 for each training sample, then 0 for each test
    sample, in the order of the combined data. *)
Definition test_fold {A} (Xtr1 Xts1 : list A) : list Z :=
  replicate (length Xtr1) (-1) ++ replicate (length Xts1) 0.

(** Modelled from the spec: NumPy's [np.where(mask)[0]] for the mask
    [[P(ys[i]) for i]], which the library routine below applies: the
    positions of the entries that satisfy [P], in increasing order.
    [where_from s] numbers the positions from [s]. *)
Fixpoint where_from (s : nat) (P : Z → bool) (ys : list Z) : list nat :=
  match ys with
  | [] => []
  | y :: ys' => if P y then s :: where_from (S s) P ys' else where_from (S s) P ys'
  end.

(** Modelled from the spec: [np.where(mask)[0]], positions numbered from 0. *)
Definition where_ (P : Z → bool) (ys : list Z) : list nat := where_from 0 P ys.

(** Modelled from the spec: [sklearn.model_selection.PredefinedSplit], which
    is outside the repository.  Its folds are the distinct entries of
    [test_fold] other than -1, in increasing order; fold [f] holds out the
    samples marked [f] and trains on all others. *)
Module PredefinedSplit.

(** Modelled from the spec: the folds of [PredefinedSplit(test_fold)], the
    sorted distinct entries other than -1. *)
Definition unique_folds (tf : list Z) : list Z :=
  merge_sort Z.le (remove_dups (filter (λ f, f ≠ -1) tf)).

(** Modelled from the spec: [PredefinedSplit(test_fold).split()], the
    (train, test) index pairs, one per fold. *)
Definition split (tf : list Z) : list (list nat * list nat) :=
  (λ f, (where_ (λ g, negb (g =? f)) tf, where_ (λ g, g =? f) tf)) <$> unique_folds tf.

End PredefinedSplit.

(** ** Sample files used in the examples *)

Module Sample.

Definition partition (images labels : Np.value) (nwriters : nat) : Np.value :=
  Np.StructArr [1; 1]%nat
    [[images; labels; Np.NumArr Np.Int64 [nwriters; 1]%nat (replicate nwriters 0)]].

Definition dataset (train test : Np.value) : Np.value :=
  Np.StructArr [1; 1]%nat [[train; test; Np.NumArr Np.UInt8 [1; 2]%nat [0; 48]]].

Definition train_images : Np.value := Np.NumArr Np.UInt8 [2; 3]%nat [0; 10; 20; 30; 40; 50].
Definition train_labels : Np.value := Np.NumArr Np.UInt8 [2; 1]%nat [7; 3].
Definition test_images : Np.value := Np.NumArr Np.UInt8 [1; 3]%nat [255; 0; 255].
Definition test_labels : Np.value := Np.NumArr Np.UInt8 [1; 1]%nat [4].
(** Three labels for two training rows. *)
Definition long_labels : Np.value := Np.NumArr Np.UInt8 [3; 1]%nat [7; 3; 1].

Definition good_mat : gmap string Np.value :=
  {[ "dataset" := dataset (partition train_images train_labels 2)
                          (partition test_images test_labels 1) ]}.

Definition uneven_mat : gmap string Np.value :=
  {[ "dataset" := dataset (partition train_images long_labels 2)
                          (partition test_images test_labels 1) ]}.

(** A stand-in for the MATLAB parser on three file contents. *)
Definition parse (contents : string) : res (gmap string Np.value) :=
  if decide (contents = "good") then Ok good_mat
  else if decide (contents = "uneven") then Ok uneven_mat
  else if decide (contents = "empty") then Ok ∅
  else Raise MatReadError.

Definition disk : gmap string string :=
  {[ "matlab/emnist-digits.mat" := "good";
     "matlab/uneven.mat" := "uneven";
     "matlab/empty.mat" := "empty";
     "matlab/notes.txt" := "not a MATLAB file" ]}.

Definition w0 : world := World disk ∅ [] [].

End Sample.

(** * Properties *)

(** ** Worked examples *)

Example transpose_2_by_3 :
  Np.T (Np.NumArr Np.UInt8 [2; 3]%nat [1; 2; 3; 4; 5; 6])
  = Np.NumArr Np.UInt8 [3; 2]%nat [1; 4; 2; 5; 3; 6].
Proof. reflexivity. Qed.

Example getitem_row :
  Np.getitem Sample.train_images 1 = Ok (Np.NumArr Np.UInt8 [3%nat] [30; 40; 50]).
Proof. reflexivity. Qed.

Example load_emnist_sample :
  load_emnist Sample.parse load_emnist_default Sample.w0 =
  (Ok [Sample.train_images; Sample.test_images;
       Np.NumArr Np.Int64 [2%nat] [7; 3]; Np.NumArr Np.Int64 [1%nat] [4]],
   World Sample.disk ∅ ["2 training samples, 1 test samples loaded"] []).
Proof. by vm_compute. Qed.

(** A path given without [.mat] is retried with it. *)
Example load_emnist_appends_mat :
  fst (load_emnist Sample.parse "matlab/emnist-digits" Sample.w0)
  = fst (load_emnist Sample.parse "matlab/emnist-digits.mat" Sample.w0)
  ∧ fst (load_emnist Sample.parse "matlab/notes" Sample.w0) = Raise FileNotFoundError.
Proof. by vm_compute. Qed.

Example endswith_mat :
  ends_with ".mat" "matlab/emnist-digits.mat" = true
  ∧ ends_with ".mat" "matlab/emnist-digits" = false
  ∧ ends_with ".mat" "mat" = false.
Proof. by vm_compute. Qed.

(** Unlike [load_emnist], the cell that calls it binds globals. *)
Example cell_8_binds_globals :
  globals (snd (cell_8 Sample.parse Sample.w0)) !! "ytr_dig"
  = Some (Np.NumArr Np.Int64 [2%nat] [7; 3]).
Proof. by vm_compute. Qed.

(** ** Chains of calls *)

Lemma and_then_ok {A B} (r : res A) (f : A → res B) b :
  r |> f = Ok b → ∃ a, r = Ok a ∧ f a = Ok b.
Proof. destruct r as [a|e]; simpl; [eauto | discriminate]. Qed.

Lemma and_then_raise {A B} (r : res A) (f : A → res B) e :
  r = Raise e → r |> f = Raise e.
Proof. by intros ->. Qed.

Lemma bind_raise {A B} (m : M A) (f : A → M B) e w w' :
  m w = (Raise e, w') → bind m f w = (Raise e, w').
Proof. unfold bind. by intros ->. Qed.

Lemma bind_ok {A B} (m : M A) (f : A → M B) a w w' :
  m w = (Ok a, w') → bind m f w = f a w'.
Proof. unfold bind. by intros ->. Qed.

Lemma bind_lift_ok {A B} (r : res A) (f : A → M B) a w :
  r = Ok a → bind (lift r) f w = f a w.
Proof. by intros ->. Qed.

Lemma bind_lift_raise {A B} (r : res A) (f : A → M B) e w :
  r = Raise e → bind (lift r) f w = (Raise e, w).
Proof. by intros ->. Qed.

(** ** NumPy facts *)

(** [a[0][0][k]] on a 1-by-1 struct array is field [k] of its record. *)
Lemma record_field fs more k :
  Ok (Np.StructArr [1; 1]%nat (fs :: more)) |> item 0 |> item 0 |> item k
  = match fs !! k with Some f => Ok f | None => Raise IndexError end.
Proof. reflexivity. Qed.

Lemma slice_all_array v d ds : Np.shape v = d :: ds → Np.slice_all v = Ok v.
Proof. destruct v as [dt [|] ?|[|] ?| |]; simpl; intros; by simplify_eq. Qed.

Lemma slice_all_ok v v' : Np.slice_all v = Ok v' → v' = v ∧ Np.shape v ≠ [].
Proof. destruct v as [dt [|] ?|[|] ?| |]; simpl; intros; by simplify_eq. Qed.

Lemma shape0_shape v d ds : Np.shape v = d :: ds → Np.shape0 v = Ok d.
Proof. unfold Np.shape0. by intros ->. Qed.

Lemma shape0_ok v n : Np.shape0 v = Ok n → ∃ rest, Np.shape v = n :: rest.
Proof.
  unfold Np.shape0. destruct (Np.shape v) as [|d ds]; intros; simplify_eq; eauto.
Qed.

Lemma reshape_ok v sh v' :
  Np.reshape v sh = Ok v' → Np.size v = Np.size_of sh ∧ Np.shape v' = sh.
Proof.
  unfold Np.reshape. case_decide; [|discriminate].
  destruct v; intros; simplify_eq; auto.
Qed.

Lemma reshape_raise v sh :
  Np.size v ≠ Np.size_of sh → Np.reshape v sh = Raise ValueError.
Proof. unfold Np.reshape. intros. by case_decide. Qed.

Lemma reshape_is_ok v sh :
  Np.size v = Np.size_of sh ↔ ∃ v', Np.reshape v sh = Ok v'.
Proof.
  split.
  - unfold Np.reshape. intros. case_decide; [|done]. destruct v; eauto.
  - intros [v' H]. by apply reshape_ok in H as [? _].
Qed.

Lemma size_of_singleton n : Np.size_of [n] = n.
Proof. unfold Np.size_of. simpl. lia. Qed.

Lemma astype_int_ok v y :
  Np.astype_int v = Ok y →
  (∃ dt data, v = Np.NumArr dt (Np.shape v) data ∧ y = Np.NumArr Np.Int64 (Np.shape v) data)
  ∨ (∃ z, v = Np.Num z ∧ y = Np.Num z).
Proof. destruct v; simpl; intros; simplify_eq; eauto. Qed.

(** [reshape(n)] followed by [astype(int)]: a result is a one-dimensional
    integer vector of [n] entries. *)
Lemma reshape_astype_ok v n y :
  reshape_to n v |> Np.astype_int = Ok y →
  ∃ data, y = Np.NumArr Np.Int64 [n] data ∧ Np.size v = n.
Proof.
  intros (v' & Hr & Ha)%and_then_ok. apply reshape_ok in Hr as [Hs Hsh].
  rewrite size_of_singleton in Hs.
  apply astype_int_ok in Ha as [(dt & data & _ & ->)|(z & -> & _)].
  - rewrite Hsh. eauto.
  - discriminate.
Qed.

(** ** [load_emnist] *)

(** A file that is there under the path as given is the file opened. *)
Lemma open_file_found fs path contents :
  fs !! path = Some contents → open_file fs path = Some contents.
Proof. unfold open_file. by intros ->. Qed.

(** A path that ends in [.mat] is tried as given only. *)
Lemma open_file_mat fs path :
  ends_with ".mat" path = true → open_file fs path = fs !! path.
Proof. unfold open_file. intros ->. by destruct (fs !! path). Qed.

Section LoaderFacts.

Variable parse_mat : string → res (gmap string Np.value).

Lemma loadmat_frame path w : snd (loadmat parse_mat path w) = w.
Proof. unfold loadmat. by destruct (open_file (files w) path). Qed.

(** [load_emnist] spelled out on the outcome of [loadmat] and of the four
    array expressions. *)
Lemma load_emnist_unfold path w :
  load_emnist parse_mat path w =
  match loadmat parse_mat path w with
  | (Raise e, _) => (Raise e, w)
  | (Ok mat, _) =>
    match partition_field mat 0 0 with
    | Raise e => (Raise e, w)
    | Ok Xtr =>
      match Np.shape0 Xtr with
      | Raise e => (Raise e, w)
      | Ok ntr =>
        match partition_field mat 0 1 |> reshape_to ntr |> Np.astype_int with
        | Raise e => (Raise e, w)
        | Ok ytr =>
          match partition_field mat 1 0 with
          | Raise e => (Raise e, w)
          | Ok Xts =>
            match Np.shape0 Xts with
            | Raise e => (Raise e, w)
            | Ok nts =>
              match partition_field mat 1 1 |> reshape_to nts |> Np.astype_int with
              | Raise e => (Raise e, w)
              | Ok yts =>
                  (Ok [Xtr; Xts; ytr; yts],
                   World (files w) (globals w)
                         (stdout w ++ [loaded_message ntr nts]) (figure w))
              end
            end
          end
        end
      end
    end
  end.
Proof.
  unfold load_emnist, bind, partition_field.
  pose proof (loadmat_frame path w) as Hf.
  destruct (loadmat parse_mat path w) as [[mat|e] w1]; simpl in Hf; subst w1; [|done].
  unfold lift at 1.
  destruct (dict_getitem mat "dataset" |> item 0 |> item 0 |> item 0 |> item 0
            |> item 0 |> item 0 |> Np.slice_all) as [Xtr|]; [|done].
  unfold lift at 1. destruct (Np.shape0 Xtr) as [ntr|]; [|done].
  unfold lift at 1.
  destruct (dict_getitem mat "dataset" |> item 0 |> item 0 |> item 0 |> item 0
            |> item 0 |> item 1 |> Np.slice_all |> reshape_to ntr |> Np.astype_int)
    as [ytr|]; [|done].
  unfold lift at 1.
  destruct (dict_getitem mat "dataset" |> item 0 |> item 0 |> item 1 |> item 0
            |> item 0 |> item 0 |> Np.slice_all) as [Xts|]; [|done].
  unfold lift at 1. destruct (Np.shape0 Xts) as [nts|]; [|done].
  unfold lift at 1.
  destruct (dict_getitem mat "dataset" |> item 0 |> item 0 |> item 1 |> item 0
            |> item 0 |> item 1 |> Np.slice_all |> reshape_to nts |> Np.astype_int)
    as [yts|]; [|done].
  reflexivity.
Qed.

End LoaderFacts.

Lemma partition_field_layout mat Xtr Ltr Xts Lts :
  emnist_layout mat Xtr Ltr Xts Lts →
  partition_field mat 0 0 = Np.slice_all Xtr
  ∧ partition_field mat 0 1 = Np.slice_all Ltr
  ∧ partition_field mat 1 0 = Np.slice_all Xts
  ∧ partition_field mat 1 1 = Np.slice_all Lts.
Proof.
  intros [rest rest_tr rest_ts more more_tr more_ts Hds].
  unfold partition_field, dict_getitem. rewrite Hds.
  by rewrite !record_field.
Qed.

(** Whenever [load_emnist] returns, on any file, it returns the four arrays
    [[Xtr, Xts, ytr, yts]]: the features are field 0 of partitions 0 and 1,
    and each label vector is one-dimensional, of integers, with one entry per
    row of its feature array; one line has been printed and nothing else of
    the world has changed. *)
Lemma load_emnist_result parse_mat path w r w' :
  load_emnist parse_mat path w = (Ok r, w') →
  ∃ contents mat Xtr Xts ytr yts ntr nts,
    open_file (files w) path = Some contents ∧ parse_mat contents = Ok mat
    ∧ r = [Xtr; Xts; ytr; yts]
    ∧ partition_field mat 0 0 = Ok Xtr ∧ partition_field mat 1 0 = Ok Xts
    ∧ label_vector_for ytr Xtr ∧ label_vector_for yts Xts
    ∧ Np.shape0 Xtr = Ok ntr ∧ Np.shape0 Xts = Ok nts
    ∧ w' = World (files w) (globals w) (stdout w ++ [loaded_message ntr nts]) (figure w).
Proof.
  rewrite load_emnist_unfold. unfold loadmat.
  destruct (open_file (files w) path) as [contents|] eqn:Hfile; [|discriminate].
  destruct (parse_mat contents) as [mat|] eqn:Hparse; [|discriminate].
  destruct (partition_field mat 0 0) as [Xtr|] eqn:HXtr; [|discriminate].
  destruct (Np.shape0 Xtr) as [ntr|] eqn:Hntr; [|discriminate].
  destruct (partition_field mat 0 1 |> reshape_to ntr |> Np.astype_int)
    as [ytr|] eqn:Hytr; [|discriminate].
  destruct (partition_field mat 1 0) as [Xts|] eqn:HXts; [|discriminate].
  destruct (Np.shape0 Xts) as [nts|] eqn:Hnts; [|discriminate].
  destruct (partition_field mat 1 1 |> reshape_to nts |> Np.astype_int)
    as [yts|] eqn:Hyts; [|discriminate].
  intros [= <- <-].
  destruct (partition_field mat 0 1) as [Ltr|]; [|discriminate].
  destruct (partition_field mat 1 1) as [Lts|]; [|discriminate].
  apply reshape_astype_ok in Hytr as (dtr & -> & _).
  apply reshape_astype_ok in Hyts as (dts & -> & _).
  destruct (shape0_ok _ _ Hntr) as [str Hstr].
  destruct (shape0_ok _ _ Hnts) as [sts Hsts].
  exists contents, mat, Xtr, Xts, (Np.NumArr Np.Int64 [ntr] dtr),
    (Np.NumArr Np.Int64 [nts] dts), ntr, nts.
  unfold label_vector_for. naive_solver.
Qed.

(** C1, as amended: for every MATLAB dataset file whose contents parse into
    the EMNIST layout and in which the label array of each partition holds
    exactly as many entries as the feature array of that partition has rows,
    [load_emnist] returns the list [[Xtr, Xts, ytr, yts]]: [Xtr] and [Xts]
    are the feature arrays of the first and of the second partition, [ytr]
    and [yts] are one-dimensional integer vectors holding the labels of the
    first and of the second partition, and the length of each equals the
    number of rows of its feature array.  One status line is printed. *)
Theorem load_emnist_matching_arrays
    parse_mat path w contents mat Xtr Xts ntr nts str sts
    dtr dts ltr lts data_tr data_ts :
  files w !! path = Some contents →
  parse_mat contents = Ok mat →
  emnist_layout mat Xtr (Np.NumArr dtr ltr data_tr) Xts (Np.NumArr dts lts data_ts) →
  Np.shape Xtr = ntr :: str →
  Np.shape Xts = nts :: sts →
  ltr ≠ [] → Np.size_of ltr = ntr →
  lts ≠ [] → Np.size_of lts = nts →
  load_emnist parse_mat path w =
    (Ok [Xtr; Xts; Np.NumArr Np.Int64 [ntr] data_tr; Np.NumArr Np.Int64 [nts] data_ts],
     World (files w) (globals w) (stdout w ++ [loaded_message ntr nts]) (figure w))
  ∧ returns_matching_arrays parse_mat path w.
Proof.
  intros Hfile Hparse Hlay HXtr HXts Hltr Hntr Hlts Hnts.
  assert (load_emnist parse_mat path w =
    (Ok [Xtr; Xts; Np.NumArr Np.Int64 [ntr] data_tr; Np.NumArr Np.Int64 [nts] data_ts],
     World (files w) (globals w) (stdout w ++ [loaded_message ntr nts]) (figure w)))
    as Hrun.
  { rewrite load_emnist_unfold. unfold loadmat.
    rewrite (open_file_found _ _ _ Hfile), Hparse.
    destruct (partition_field_layout _ _ _ _ _ Hlay) as (-> & -> & -> & ->).
    rewrite (slice_all_array _ _ _ HXtr), (shape0_shape _ _ _ HXtr).
    rewrite (slice_all_array _ _ _ HXts), (shape0_shape _ _ _ HXts).
    destruct ltr as [|l1 ltr']; [done|]. destruct lts as [|l2 lts']; [done|].
    simpl. unfold reshape_to, Np.reshape, Np.size. simpl Np.shape.
    rewrite !size_of_singleton.
    rewrite !decide_True by done. reflexivity. }
  split; [exact Hrun|].
  eexists _, _, _, _, _. split; [exact Hrun|].
  unfold label_vector_for. naive_solver.
Qed.

Lemma load_emnist_matching_arrays_witness :
  load_emnist Sample.parse "matlab/emnist-digits.mat" Sample.w0 =
    (Ok [Sample.train_images; Sample.test_images;
         Np.NumArr Np.Int64 [2%nat] [7; 3]; Np.NumArr Np.Int64 [1%nat] [4]],
     World Sample.disk ∅ ["2 training samples, 1 test samples loaded"] [])
  ∧ returns_matching_arrays Sample.parse "matlab/emnist-digits.mat" Sample.w0.
Proof.
  apply (load_emnist_matching_arrays Sample.parse "matlab/emnist-digits.mat" Sample.w0
           "good" Sample.good_mat Sample.train_images Sample.test_images
           2 1 [3%nat] [3%nat] Np.UInt8 Np.UInt8 [2; 1]%nat [1; 1]%nat [7; 3] [4]).
  - reflexivity.
  - reflexivity.
  - by econstructor.
  - reflexivity.
  - reflexivity.
  - discriminate.
  - reflexivity.
  - discriminate.
  - reflexivity.
Defined.

(** C1, as stated, fails: the file below parses and has the EMNIST layout,
    but its training partition stores three labels for two feature rows;
    [reshape(ntr)] raises [ValueError] and no list is returned. *)
Lemma load_emnist_uneven_labels_raises :
  Sample.disk !! "matlab/uneven.mat" = Some "uneven"
  ∧ Sample.parse "uneven" = Ok Sample.uneven_mat
  ∧ emnist_layout Sample.uneven_mat Sample.train_images Sample.long_labels
                  Sample.test_images Sample.test_labels
  ∧ load_emnist Sample.parse "matlab/uneven.mat" Sample.w0 = (Raise ValueError, Sample.w0)
  ∧ ¬ returns_matching_arrays Sample.parse "matlab/uneven.mat" Sample.w0.
Proof.
  assert (load_emnist Sample.parse "matlab/uneven.mat" Sample.w0
          = (Raise ValueError, Sample.w0)) as Hrun by (by vm_compute).
  split_and!; [done | done | by econstructor | exact Hrun |].
  intros (Xtr & Xts & ytr & yts & w' & H & _). rewrite Hrun in H. discriminate.
Qed.

(** ** Exceptions *)

Lemma load_emnist_raises_iff parse_mat path w e :
  first_failure parse_mat path w e ↔ load_emnist parse_mat path w = (Raise e, w).
Proof.
  rewrite load_emnist_unfold. unfold loadmat. split.
  - intros [Hf ->|c Hf Hp|c mat Hf Hp H1|c mat Xtr Hf Hp H1 H2
            |c mat Xtr ntr Hf Hp H1 H2 H3|c mat Xtr ntr ytr Hf Hp H1 H2 H3 H4
            |c mat Xtr ntr ytr Xts Hf Hp H1 H2 H3 H4 H5
            |c mat Xtr ntr ytr Xts nts Hf Hp H1 H2 H3 H4 H5 H6];
      rewrite Hf; [done|rewrite Hp..]; [done|rewrite H1..]; [done|rewrite H2..];
      [done|rewrite H3..]; [done|rewrite H4..]; [done|rewrite H5..]; [done|].
    by rewrite H6.
  - destruct (open_file (files w) path) as [c|] eqn:Hf;
      [|intros [= <-]; by apply Fail_open].
    destruct (parse_mat c) as [mat|] eqn:Hp;
      [|intros [= <-]; by eapply Fail_parse].
    destruct (partition_field mat 0 0) as [Xtr|] eqn:H1;
      [|intros [= <-]; by eapply Fail_Xtr].
    destruct (Np.shape0 Xtr) as [ntr|] eqn:H2;
      [|intros [= <-]; by eapply Fail_ntr].
    destruct (partition_field mat 0 1 |> reshape_to ntr |> Np.astype_int)
      as [ytr|] eqn:H3; [|intros [= <-]; by eapply Fail_ytr].
    destruct (partition_field mat 1 0) as [Xts|] eqn:H4;
      [|intros [= <-]; by eapply Fail_Xts].
    destruct (Np.shape0 Xts) as [nts|] eqn:H5;
      [|intros [= <-]; by eapply Fail_nts].
    destruct (partition_field mat 1 1 |> reshape_to nts |> Np.astype_int)
      as [yts|] eqn:H6; [|intros [= <-]; by eapply Fail_yts].
    discriminate.
Qed.

(** A failing run of [load_emnist] leaves the world as it found it. *)
Lemma load_emnist_raise_frame parse_mat path w e w' :
  load_emnist parse_mat path w = (Raise e, w') → w' = w.
Proof.
  rewrite load_emnist_unfold. unfold loadmat.
  repeat case_match; intros; by simplify_eq.
Qed.

Lemma plt_digit_reshape_raises x y w e :
  obj_reshape x 28 28 = Raise e → plt_digit x y w = (Raise e, w).
Proof. unfold plt_digit. intros. by apply bind_lift_raise. Qed.

Lemma cell_14_first_call subplot w :
  cell_14 subplot w =
  match subplot 0 0 0 (first_turn w) with
  | (Ok _, w') => (Raise TypeError, w')
  | (Raise e, w') => (Raise e, w')
  end.
Proof.
  unfold cell_14, for_in, first_turn. simpl. unfold bind, set_global. simpl.
  change (Z.of_nat 0) with 0. change (0 * 4 + 0) with 0.
  by destruct (subplot 0 0 0 _) as [[[]|e] w'].
Qed.

Lemma load_cell_raise parse_mat path a b c d w e w' :
  bind (load_emnist parse_mat path) (unpack4 a b c d) w = (Raise e, w') →
  w' = w ∧ load_emnist parse_mat path w = (Raise e, w).
Proof.
  unfold bind.
  destruct (load_emnist parse_mat path w) as [[r|e1] w1] eqn:Hrun.
  - apply load_emnist_result in Hrun
      as (cts & mat & Xtr & Xts & ytr & yts & ntr & nts & _ & _ & -> & _).
    discriminate.
  - intros [= <- <-]. by apply load_emnist_raise_frame in Hrun as ->.
Qed.

(** [plt_digit] spelled out on the outcome of its library calls. *)
Lemma plt_digit_unfold x y w :
  plt_digit x y w =
  match obj_reshape x 28 28 with
  | Raise e => (Raise e, w)
  | Ok xsq =>
    match Plt.imshow (Np.T xsq) "Greys_r" w with
    | (Raise e, w1) => (Raise e, w1)
    | (Ok _, _) =>
      match ne_None y with
      | Raise e => (Raise e, drawn (Np.T xsq) w)
      | Ok false => (Ok (), drawn (Np.T xsq) w)
      | Ok true =>
        match format_d y with
        | Raise e => (Raise e, drawn (Np.T xsq) w)
        | Ok s =>
            (Ok (), World (files w) (globals w) (stdout w)
                          (figure w ++ [Imshow (Np.T xsq) "Greys_r"; Xticks [];
                                        Yticks []; Title s]))
        end
      end
    end
  end.
Proof.
  unfold plt_digit, bind, lift.
  destruct (obj_reshape x 28 28) as [xsq|e]; [|done].
  unfold Plt.imshow, drawn.
  destruct (Np.T xsq) as [dt [|r [|c [|]]] data| | |]; simpl; try done.
  destruct (ne_None y) as [[|]|e]; simpl.
  - destruct (format_d y) as [t|e]; simpl.
    + unfold Plt.title, plot. simpl. by rewrite <- !app_assoc.
    + by rewrite <- !app_assoc.
  - by rewrite <- !app_assoc.
  - by rewrite <- !app_assoc.
Qed.

Lemma imshow_raise_frame img cmap w e w' :
  Plt.imshow img cmap w = (Raise e, w') → w' = w.
Proof.
  unfold Plt.imshow, plot, raise.
  destruct img as [dt [|r [|c [|]]] data| | |]; simpl; intros; by simplify_eq.
Qed.

Lemma plt_digit_raises_iff x y w e w' :
  plt_digit x y w = (Raise e, w') ↔ plt_digit_failure x y w e w'.
Proof.
  rewrite plt_digit_unfold. split.
  - destruct (obj_reshape x 28 28) as [xsq|e0] eqn:Hr;
      [|intros [= <- <-]; by apply Fail_reshape].
    destruct (Plt.imshow (Np.T xsq) "Greys_r" w) as [[[]|e0] w1] eqn:Hi;
      [|intros [= <- <-]; by eapply Fail_imshow].
    assert (fst (Plt.imshow (Np.T xsq) "Greys_r" w) = Ok ()) as Hi'
      by (by rewrite Hi).
    destruct (ne_None y) as [[|]|e0] eqn:Ht;
      [|discriminate|intros [= <- <-]; by eapply Fail_test].
    destruct (format_d y) as [t|e0] eqn:Hf; [discriminate|].
    intros [= <- <-]. by eapply Fail_format.
  - intros [Hr ->|xsq Hr Hi|xsq Hr Hi Ht ->|xsq Hr Hi Ht Hf ->]; rewrite Hr.
    + done.
    + by rewrite Hi.
    + destruct (Plt.imshow (Np.T xsq) "Greys_r" w) as [[[]|e0] w1];
        [by rewrite Ht | discriminate].
    + destruct (Plt.imshow (Np.T xsq) "Greys_r" w) as [[[]|e0] w1];
        [by rewrite Ht, Hf | discriminate].
Qed.

(** C2, as amended: no operation of the notebook catches or changes an
    exception: whenever a library call fails, the exception that reaches the
    caller is the exception of the first call that failed, and nothing after
    that call runs.  [load_emnist] and the cells 8 and 10 that call it then
    leave no partial result: nothing is returned, printed or bound.
    [plt_digit] and the plotting cell leave what was done before the failing
    call: the pyplot calls already made, and the loop variables [i] and [j]
    bound for the first turn. *)
Theorem exceptions_propagate_unchanged
    parse_mat (subplot : Z → Z → Z → M unit) path x y w e w' :
  (load_emnist parse_mat path w = (Raise e, w')
     ↔ first_failure parse_mat path w e ∧ w' = w)
  ∧ (cell_8 parse_mat w = (Raise e, w')
     ↔ load_emnist parse_mat "matlab/emnist-digits.mat" w = (Raise e, w) ∧ w' = w)
  ∧ (cell_10 parse_mat w = (Raise e, w')
     ↔ load_emnist parse_mat "matlab/emnist-letters.mat" w = (Raise e, w) ∧ w' = w)
  ∧ (plt_digit x y w = (Raise e, w') ↔ plt_digit_failure x y w e w')
  ∧ (cell_14 subplot w = (Raise e, w')
     ↔ subplot 0 0 0 (first_turn w) = (Raise e, w')
       ∨ (subplot 0 0 0 (first_turn w) = (Ok (), w') ∧ e = TypeError)).
Proof.
  split_and!.
  - split.
    + intros Hrun. pose proof (load_emnist_raise_frame _ _ _ _ _ Hrun) as ->.
      split; [by apply load_emnist_raises_iff | done].
    + intros [Hfail ->]. by apply load_emnist_raises_iff.
  - split.
    + intros [-> Hrun]%load_cell_raise. by split.
    + intros [Hrun ->]. by apply bind_raise.
  - split.
    + intros [-> Hrun]%load_cell_raise. by split.
    + intros [Hrun ->]. by apply bind_raise.
  - apply plt_digit_raises_iff.
  - rewrite cell_14_first_call.
    destruct (subplot 0 0 0 (first_turn w)) as [[[]|e0] w1]; split.
    + intros [= <- <-]. by right.
    + intros [[=]|[[= <-] ->]]. done.
    + intros [= <- <-]. by left.
    + intros [[= <- <-]|[[=] _]]. done.
Qed.

Lemma exceptions_propagate_unchanged_witness :
  load_emnist Sample.parse "matlab/missing.mat" Sample.w0
    = (Raise FileNotFoundError, Sample.w0)
  ∧ cell_10 Sample.parse Sample.w0 = (Raise FileNotFoundError, Sample.w0)
  ∧ plt_digit (PVal (Np.NumArr Np.UInt8 [784%nat] (replicate 784 0)))
              (PVal (Np.NumArr Np.Int64 [2%nat] [3; 8])) Sample.w0
    = (Raise ValueError,
       drawn (Np.T (Np.NumArr Np.UInt8 [28; 28]%nat (replicate 784 0))) Sample.w0)
  ∧ cell_14 Plt.subplot Sample.w0 = (Raise ValueError, first_turn Sample.w0).
Proof.
  split_and!.
  - destruct (exceptions_propagate_unchanged Sample.parse Plt.subplot
                "matlab/missing.mat" PNone PNone Sample.w0 FileNotFoundError Sample.w0)
      as (Hload & _).
    apply Hload. split; [by apply Fail_open | done].
  - destruct (exceptions_propagate_unchanged Sample.parse Plt.subplot
                "matlab/missing.mat" PNone PNone Sample.w0 FileNotFoundError Sample.w0)
      as (_ & _ & Hcell & _).
    apply Hcell. split; [by vm_compute | done].
  - destruct (exceptions_propagate_unchanged Sample.parse Plt.subplot ""
                (PVal (Np.NumArr Np.UInt8 [784%nat] (replicate 784 0)))
                (PVal (Np.NumArr Np.Int64 [2%nat] [3; 8])) Sample.w0 ValueError
                (drawn (Np.T (Np.NumArr Np.UInt8 [28; 28]%nat (replicate 784 0)))
                       Sample.w0))
      as (_ & _ & _ & Hplt & _).
    apply Hplt.
    by apply Fail_test with (xsq := Np.NumArr Np.UInt8 [28; 28]%nat (replicate 784 0)).
  - destruct (exceptions_propagate_unchanged Sample.parse Plt.subplot "" PNone PNone
                Sample.w0 ValueError (first_turn Sample.w0))
      as (_ & _ & _ & _ & Hloop).
    apply Hloop. by left.
Defined.

(** C2, as stated, fails: an operation that raises can leave a partial
    result.  The plotting cell raises [ValueError] at its first call of
    [subplot] with the globals [i] and [j] already bound; and [plt_digit],
    given 784 pixels and a label array of two entries, raises [ValueError] at
    the test [y != None] with the image and the ticks already drawn. *)
Lemma failing_call_leaves_partial_result :
  cell_14 Plt.subplot Sample.w0 = (Raise ValueError, first_turn Sample.w0)
  ∧ globals (first_turn Sample.w0) !! "i" = Some (Np.Num 0)
  ∧ globals Sample.w0 !! "i" = None
  ∧ ¬ leaves_no_trace (cell_14 Plt.subplot)
  ∧ plt_digit (PVal (Np.NumArr Np.UInt8 [784%nat] (replicate 784 0)))
              (PVal (Np.NumArr Np.Int64 [2%nat] [3; 8])) Sample.w0
    = (Raise ValueError,
       drawn (Np.T (Np.NumArr Np.UInt8 [28; 28]%nat (replicate 784 0))) Sample.w0)
  ∧ length (figure (drawn (Np.T (Np.NumArr Np.UInt8 [28; 28]%nat (replicate 784 0)))
                          Sample.w0)) = 3%nat
  ∧ ¬ leaves_no_trace (plt_digit (PVal (Np.NumArr Np.UInt8 [784%nat] (replicate 784 0)))
                                 (PVal (Np.NumArr Np.Int64 [2%nat] [3; 8]))).
Proof.
  assert (cell_14 Plt.subplot Sample.w0 = (Raise ValueError, first_turn Sample.w0))
    as Hcell by (by rewrite cell_14_first_call).
  assert (plt_digit (PVal (Np.NumArr Np.UInt8 [784%nat] (replicate 784 0)))
              (PVal (Np.NumArr Np.Int64 [2%nat] [3; 8])) Sample.w0
    = (Raise ValueError,
       drawn (Np.T (Np.NumArr Np.UInt8 [28; 28]%nat (replicate 784 0))) Sample.w0))
    as Hplt by (by rewrite plt_digit_unfold).
  split_and!; [exact Hcell | done | done | | exact Hplt | done |].
  - intros Hno. specialize (Hno _ _ _ Hcell).
    apply (f_equal (λ w, globals w !! "i")) in Hno. discriminate.
  - intros Hno. specialize (Hno _ _ _ Hplt).
    apply (f_equal (λ w, length (figure w))) in Hno. discriminate.
Qed.

(** ** Effects of [load_emnist] *)

(** C8: [load_emnist] has no effect on the files, on the global variables or
    on the figure; it prints one status line when it returns the arrays and
    nothing when it raises; and what it returns is a function of the file's
    contents alone: two calls that open the same contents (or both find no
    file), in whatever worlds and under whatever paths, return the same. *)
Theorem load_emnist_effects parse_mat p1 w1 p2 w2 :
  open_file (files w1) p1 = open_file (files w2) p2 →
  let run1 := load_emnist parse_mat p1 w1 in
  let run2 := load_emnist parse_mat p2 w2 in
  files (snd run1) = files w1
  ∧ globals (snd run1) = globals w1
  ∧ figure (snd run1) = figure w1
  ∧ (if is_ok (fst run1)
     then ∃ line, stdout (snd run1) = stdout w1 ++ [line]
     else stdout (snd run1) = stdout w1)
  ∧ fst run1 = fst run2.
Proof.
  intros Hsame. simpl. split_and!.
  1-4: destruct (load_emnist parse_mat p1 w1) as [[r|e] w'] eqn:Hrun; simpl;
    [apply load_emnist_result in Hrun as (?&?&?&?&?&?&?&?&?&?&?&?&?&?&?&?&?&->)
    |apply load_emnist_raise_frame in Hrun as ->]; simpl; eauto.
  rewrite !load_emnist_unfold. unfold loadmat. rewrite <- Hsame.
  destruct (open_file (files w1) p1) as [c|]; [|done].
  destruct (parse_mat c) as [mat|]; [|done].
  repeat match goal with
         | |- context [match ?x with _ => _ end] => destruct x
         end; done.
Qed.

Lemma load_emnist_effects_witness :
  let run1 := load_emnist Sample.parse "matlab/emnist-digits.mat" Sample.w0 in
  let run2 := load_emnist Sample.parse "copy.mat"
                (World {[ "copy.mat" := "good" ]} ∅ ["earlier output"] []) in
  files (snd run1) = Sample.disk
  ∧ globals (snd run1) = ∅
  ∧ figure (snd run1) = []
  ∧ (if is_ok (fst run1)
     then ∃ line, stdout (snd run1) = [] ++ [line]
     else stdout (snd run1) = [])
  ∧ fst run1 = fst run2.
Proof.
  apply (load_emnist_effects Sample.parse "matlab/emnist-digits.mat" Sample.w0
           "copy.mat" (World {[ "copy.mat" := "good" ]} ∅ ["earlier output"] [])).
  reflexivity.
Defined.

(** ** [plt_digit] and the plotting cell *)

Lemma plt_digit_numeric dt sh data y w :
  Np.size_of sh = 784%nat →
  plt_digit (PVal (Np.NumArr dt sh data)) y w =
  let img := Np.T (Np.NumArr dt [28; 28]%nat data) in
  match ne_None y with
  | Raise e => (Raise e, drawn img w)
  | Ok false => (Ok (), drawn img w)
  | Ok true =>
      match format_d y with
      | Raise e => (Raise e, drawn img w)
      | Ok s =>
          (Ok (), World (files w) (globals w) (stdout w)
                        (figure w ++ [Imshow img "Greys_r"; Xticks []; Yticks [];
                                      Title s]))
      end
  end.
Proof.
  intros Hsize. rewrite plt_digit_unfold.
  unfold obj_reshape, Np.reshape, Np.size. cbn [Np.shape].
  rewrite decide_True by (rewrite Hsize; reflexivity).
  reflexivity.
Qed.

(** C9: [plt_digit] is defined exactly on inputs of 784 elements.  For every
    NumPy value [x], the reshape to 28 by 28 succeeds if and only if [x] holds
    784 elements; with any other element count the call raises the error of
    [reshape] before anything is plotted; and a numeric array of 784 elements
    is drawn, with its label as title when one is given. *)
Theorem plt_digit_needs_784_elements x y w :
  (Np.size x = 784%nat ↔ ∃ xsq, obj_reshape (PVal x) 28 28 = Ok xsq)
  ∧ (Np.size x ≠ 784%nat → plt_digit (PVal x) y w = (Raise ValueError, w))
  ∧ (∀ dt sh data, x = Np.NumArr dt sh data → Np.size x = 784%nat →
       ∃ w', plt_digit (PVal x) PNone w = (Ok (), w')
             ∧ figure w' = figure w ++
                 [Imshow (Np.T (Np.NumArr dt [28; 28]%nat data)) "Greys_r";
                  Xticks []; Yticks []]).
Proof.
  split_and!.
  - apply (reshape_is_ok x [28; 28]%nat).
  - intros Hsize. apply plt_digit_reshape_raises. simpl.
    by apply reshape_raise.
  - intros dt sh data -> Hsize. rewrite plt_digit_numeric by exact Hsize.
    eauto.
Qed.

Lemma plt_digit_needs_784_elements_witness :
  plt_digit (PVal (Np.NumArr Np.UInt8 [1; 783]%nat (replicate 783 0))) PNone Sample.w0
    = (Raise ValueError, Sample.w0)
  ∧ ∃ w', plt_digit (PVal (Np.NumArr Np.UInt8 [1; 784]%nat (replicate 784 0))) PNone
            Sample.w0 = (Ok (), w')
          ∧ figure w' = [] ++
              [Imshow (Np.T (Np.NumArr Np.UInt8 [28; 28]%nat (replicate 784 0))) "Greys_r";
               Xticks []; Yticks []].
Proof.
  split.
  - apply (plt_digit_needs_784_elements
             (Np.NumArr Np.UInt8 [1; 783]%nat (replicate 783 0)) PNone Sample.w0).
    vm_compute. lia.
  - destruct (plt_digit_needs_784_elements
                (Np.NumArr Np.UInt8 [1; 784]%nat (replicate 784 0)) PNone Sample.w0)
      as (_ & _ & Hdrawn).
    apply (Hdrawn Np.UInt8 [1; 784]%nat (replicate 784 0)); reflexivity.
Defined.

(** C10: the plotting cell raises on every run.  Its first iteration calls
    [plt.subplot(0, 0, 0)], which Matplotlib rejects with [ValueError]; the
    call [plt_digit()] without the required argument [x] raises [TypeError];
    so the cell ends in [ValueError] with nothing plotted and only the loop
    variables [i] and [j] bound, and whatever [subplot] did with its
    arguments the cell would not complete. *)
Theorem cell_14_always_raises w :
  Plt.subplot 0 0 0 w = (Raise ValueError, w)
  ∧ call_plt_digit [] w = (Raise TypeError, w)
  ∧ cell_14 Plt.subplot w = (Raise ValueError, first_turn w)
  ∧ ∀ subplot, ∃ e w', cell_14 subplot w = (Raise e, w').
Proof.
  split_and!.
  - reflexivity.
  - reflexivity.
  - by rewrite cell_14_first_call.
  - intros subplot. rewrite cell_14_first_call.
    destruct (subplot 0 0 0 (first_turn w)) as [[[]|e] w']; eauto.
Qed.

(** ** Positions and selections *)

Lemma elem_of_where_from s P ys i :
  i ∈ where_from s P ys ↔ ∃ j l, i = (s + j)%nat ∧ ys !! j = Some l ∧ P l = true.
Proof.
  revert s. induction ys as [|y ys IH]; intros s; simpl.
  - split; [by intros ?%elem_of_nil | by intros (j & l & _ & ? & _)].
  - transitivity (i = s ∧ P y = true ∨ i ∈ where_from (S s) P ys).
    { destruct (P y); rewrite ?elem_of_cons; intuition congruence. }
    rewrite IH. split.
    + intros [[-> HP]|(j & l & -> & Hj & HP)].
      * exists 0%nat, y. split_and!; [lia | done | done].
      * exists (S j), l. split_and!; [lia | done | done].
    + intros ([|j] & l & -> & Hj & HP); simpl in Hj.
      * left. simplify_eq. split; [lia | done].
      * right. exists j, l. split_and!; [lia | done | done].
Qed.

Lemma elem_of_where P ys i :
  i ∈ where_ P ys ↔ ∃ l, ys !! i = Some l ∧ P l = true.
Proof.
  unfold where_. rewrite elem_of_where_from. split.
  - intros (j & l & -> & Hj & HP). eauto.
  - intros (l & Hi & HP). exists i, l. eauto.
Qed.

Lemma where_from_sorted s P ys : StronglySorted lt (where_from s P ys).
Proof.
  revert s. induction ys as [|y ys IH]; intros s; simpl; [constructor|].
  destruct (P y); [|apply IH].
  constructor; [apply IH|].
  apply Forall_forall. intros i (j & l & -> & _)%elem_of_where_from. lia.
Qed.

Lemma where_from_app s P ys1 ys2 :
  where_from s P (ys1 ++ ys2)
  = where_from s P ys1 ++ where_from (s + length ys1) P ys2.
Proof.
  revert s. induction ys1 as [|y ys1 IH]; intros s; simpl.
  - by rewrite Nat.add_0_r.
  - rewrite IH. replace (S s + length ys1)%nat with (s + S (length ys1))%nat by lia.
    by destruct (P y).
Qed.

Lemma where_from_replicate_true s P n x :
  P x = true → where_from s P (replicate n x) = seq s n.
Proof.
  intros HP. revert s. induction n as [|n IH]; intros s; simpl; [done|].
  by rewrite HP, IH.
Qed.

Lemma where_from_replicate_false s P n x :
  P x = false → where_from s P (replicate n x) = [].
Proof.
  intros HP. revert s. induction n as [|n IH]; intros s; simpl; [done|].
  by rewrite HP, IH.
Qed.

(** The entries selected by the mask [P <$> ys] are the entries at the
    positions [where_from s P ys], in the same order. *)
Lemma select_where_from {A} P ys (xs pre : list A) :
  length xs = length ys →
  (λ i, (pre ++ xs) !! i) <$> where_from (length pre) P ys
  = Some <$> select (P <$> ys) xs.
Proof.
  revert xs pre. induction ys as [|y ys IH]; intros [|x xs] pre Hlen;
    simplify_eq/=; [done|].
  specialize (IH xs (pre ++ [x]) Hlen).
  rewrite length_app, <- app_assoc in IH. simpl in IH.
  replace (length pre + 1)%nat with (S (length pre)) in IH by lia.
  destruct (P y); [|done].
  by rewrite !fmap_cons, IH, list_lookup_middle.
Qed.

Lemma select_where {A} P ys (xs : list A) :
  length xs = length ys →
  (λ i, xs !! i) <$> where_ P ys = Some <$> select (P <$> ys) xs.
Proof. intros. by apply (select_where_from P ys xs []). Qed.

Lemma unambiguous_spec l :
  unambiguous l = true ↔ l ≠ 9 ∧ l ≠ 12 ∧ l ≠ 15.
Proof.
  unfold unambiguous, remove_list. simpl.
  rewrite !andb_true_iff, !negb_true_iff, !Z.eqb_neq. tauto.
Qed.

Lemma Some_fmap_length {A} (f : nat → option A) (I : list nat) (r : list A) :
  f <$> I = Some <$> r → length r = length I.
Proof. intros H. apply (f_equal length) in H. by rewrite !length_fmap in H. Qed.

(** C4: the filtering step removes from the letter arrays exactly the samples
    labelled 9, 12 or 15.  For feature rows [X] and labels [y] of one
    length, the kept positions [keep] are those whose label is none of the
    three, in increasing order, and the filtered arrays hold the rows and the
    labels found at those positions, unchanged. *)
Theorem remove_ambiguous_exact {A} (X : list A) (y : list Z) :
  length X = length y →
  ∃ X_rem y_rem keep,
    remove_ambiguous X y = Ok (X_rem, y_rem)
    ∧ (∀ i, i ∈ keep ↔ ∃ l, y !! i = Some l ∧ l ≠ 9 ∧ l ≠ 12 ∧ l ≠ 15)
    ∧ (∀ i l, y !! i = Some l → i ∉ keep ↔ l ∈ remove_list)
    ∧ StronglySorted lt keep
    ∧ (λ i, X !! i) <$> keep = Some <$> X_rem
    ∧ (λ i, y !! i) <$> keep = Some <$> y_rem
    ∧ length X_rem = length y_rem.
Proof.
  intros Hlen.
  exists (select (keep_mask y) X), (select (keep_mask y) y), (where_ unambiguous y).
  assert (∀ i, i ∈ where_ unambiguous y
               ↔ ∃ l, y !! i = Some l ∧ l ≠ 9 ∧ l ≠ 12 ∧ l ≠ 15) as Hkeep.
  { intros i. rewrite elem_of_where. by setoid_rewrite unambiguous_spec. }
  pose proof (select_where unambiguous y X Hlen) as HX.
  pose proof (select_where unambiguous y y eq_refl) as Hy.
  split_and!.
  - unfold remove_ambiguous, mask_select, keep_mask.
    rewrite !length_fmap, !decide_True by done. reflexivity.
  - exact Hkeep.
  - intros i l Hi. rewrite Hkeep, Hi. unfold remove_list.
    rewrite !elem_of_cons, elem_of_nil. split.
    + intros Hnot. destruct (decide (l = 9)), (decide (l = 12)), (decide (l = 15));
        try tauto. destruct Hnot. eauto.
    + intros Hin (l' & [= <-] & ?). lia.
  - apply where_from_sorted.
  - exact HX.
  - exact Hy.
  - unfold keep_mask.
    by rewrite (Some_fmap_length _ _ _ HX), (Some_fmap_length _ _ _ Hy).
Qed.

Lemma remove_ambiguous_exact_witness :
  ∃ X_rem y_rem keep,
    remove_ambiguous ["a"; "i"; "k"; "L"; "o"; "z"] [1; 9; 11; 12; 15; 26]
      = Ok (X_rem, y_rem)
    ∧ (∀ i, i ∈ keep ↔
         ∃ l, [1; 9; 11; 12; 15; 26] !! i = Some l ∧ l ≠ 9 ∧ l ≠ 12 ∧ l ≠ 15)
    ∧ (∀ i l, [1; 9; 11; 12; 15; 26] !! i = Some l → i ∉ keep ↔ l ∈ remove_list)
    ∧ StronglySorted lt keep
    ∧ (λ i, ["a"; "i"; "k"; "L"; "o"; "z"] !! i) <$> keep = Some <$> X_rem
    ∧ (λ i, [1; 9; 11; 12; 15; 26] !! i) <$> keep = Some <$> y_rem
    ∧ length X_rem = length y_rem.
Proof.
  apply (remove_ambiguous_exact ["a"; "i"; "k"; "L"; "o"; "z"] [1; 9; 11; 12; 15; 26]).
  reflexivity.
Defined.

Example remove_ambiguous_letters :
  remove_ambiguous ["a"; "i"; "k"; "L"; "o"; "z"] [1; 9; 11; 12; 15; 26]
  = Ok (["a"; "k"; "z"], [1; 11; 26]).
Proof. reflexivity. Qed.

(** ** Subsampling *)

Lemma take_rows_ok {A} (xs : list A) (I : list nat) :
  Forall (λ i, i < length xs)%nat I →
  ∃ r, take_rows xs I = Ok r ∧ (λ i, xs !! i) <$> I = Some <$> r.
Proof.
  induction 1 as [|i I Hi _ (r & Hr & Hrows)]; [by exists []|].
  destruct (lookup_lt_is_Some_2 xs i Hi) as [x Hx].
  exists (x :: r). split.
  - simpl. by rewrite Hx, Hr.
  - by rewrite !fmap_cons, Hrows, Hx.
Qed.

Lemma take_rows_subseteq {A} (xs r : list A) (I : list nat) :
  (λ i, xs !! i) <$> I = Some <$> r → r ⊆ xs.
Proof.
  intros Hrows x Hx.
  assert (Some x ∈ (λ i, xs !! i) <$> I) as Hin.
  { rewrite Hrows. by apply list_elem_of_fmap_2. }
  apply list_elem_of_fmap in Hin as (i & Hi & _).
  eapply list_elem_of_lookup_2. by symmetry.
Qed.

Lemma permutation_indices perm N n :
  perm ≡ₚ seq 0 N → (n ≤ N)%nat →
  length (take n perm) = n
  ∧ Forall (λ i, i < N)%nat (take n perm)
  ∧ NoDup (take n perm).
Proof.
  intros Hperm Hn. split_and!.
  - apply length_take_le. by rewrite Hperm, length_seq.
  - apply Forall_forall. intros i Hi%subseteq_take.
    rewrite Hperm in Hi. apply elem_of_seq in Hi. lia.
  - eapply sublist_NoDup; [|apply sublist_take].
    rewrite Hperm. apply NoDup_seq.
Qed.

Lemma subsample_ok {A} n perm (X : list A) (y : list Z) :
  length X = length y → perm ≡ₚ seq 0 (length X) → (n ≤ length X)%nat →
  ∃ X1 y1,
    subsample n perm X y = Ok (X1, y1)
    ∧ length X1 = n ∧ length y1 = n
    ∧ (λ i, X !! i) <$> take n perm = Some <$> X1
    ∧ (λ i, y !! i) <$> take n perm = Some <$> y1
    ∧ NoDup (take n perm).
Proof.
  intros Hlen Hperm Hn.
  destruct (permutation_indices perm (length X) n Hperm Hn) as (HI & Hin & Hnd).
  destruct (take_rows_ok X (take n perm) Hin) as (X1 & HX1 & HrX).
  rewrite Hlen in Hin.
  destruct (take_rows_ok y (take n perm) Hin) as (y1 & Hy1 & Hry).
  exists X1, y1. unfold subsample. rewrite HX1, Hy1. split_and!; try done.
  - by rewrite (Some_fmap_length _ _ _ HrX).
  - by rewrite (Some_fmap_length _ _ _ Hry).
Qed.

(** C5: the subsampling step draws fixed numbers of samples.  For the
    training counts ([ntr_dig], [ntr_let]) and for the test counts
    ([nts_dig], [nts_let]), out of digit arrays and filtered letter arrays
    that hold at least that many samples, the step yields exactly 5000 digit
    samples and exactly 1000 letter samples, each a row of the array it is
    drawn from, taken with its own label and at distinct positions, and the
    merged set holds 6000 samples. *)
Theorem subsample_counts {A} (X_dig X_let : list A) (y_dig y_let : list Z)
    (perm_dig perm_let : list nat) (n_dig n_let : nat) :
  (n_dig, n_let) = (ntr_dig, ntr_let) ∨ (n_dig, n_let) = (nts_dig, nts_let) →
  length X_dig = length y_dig → length X_let = length y_let →
  perm_dig ≡ₚ seq 0 (length X_dig) → perm_let ≡ₚ seq 0 (length X_let) →
  (n_dig ≤ length X_dig)%nat → (n_let ≤ length X_let)%nat →
  ∃ X1_dig y1_dig X1_let y1_let,
    subsample n_dig perm_dig X_dig y_dig = Ok (X1_dig, y1_dig)
    ∧ subsample n_let perm_let X_let y_let = Ok (X1_let, y1_let)
    ∧ length X1_dig = 5000%nat ∧ length y1_dig = 5000%nat
    ∧ length X1_let = 1000%nat ∧ length y1_let = 1000%nat
    ∧ (λ i, X_dig !! i) <$> take n_dig perm_dig = Some <$> X1_dig
    ∧ (λ i, y_dig !! i) <$> take n_dig perm_dig = Some <$> y1_dig
    ∧ (λ i, X_let !! i) <$> take n_let perm_let = Some <$> X1_let
    ∧ (λ i, y_let !! i) <$> take n_let perm_let = Some <$> y1_let
    ∧ X1_dig ⊆ X_dig ∧ X1_let ⊆ X_let
    ∧ NoDup (take n_dig perm_dig) ∧ NoDup (take n_let perm_let)
    ∧ length (fst (merge X1_dig X1_let y1_dig y1_let)) = (5000 + 1000)%nat
    ∧ length (snd (merge X1_dig X1_let y1_dig y1_let)) = (5000 + 1000)%nat.
Proof.
  intros Hn HlenD HlenL HpD HpL HnD HnL.
  destruct (subsample_ok n_dig perm_dig X_dig y_dig HlenD HpD HnD)
    as (X1_dig & y1_dig & HsD & HlXD & HlyD & HrXD & HryD & HndD).
  destruct (subsample_ok n_let perm_let X_let y_let HlenL HpL HnL)
    as (X1_let & y1_let & HsL & HlXL & HlyL & HrXL & HryL & HndL).
  assert (n_dig = 5000 ∧ n_let = 1000)%nat as [-> ->].
  { unfold ntr_dig, ntr_let, nts_dig, nts_let in Hn. by destruct Hn; simplify_eq. }
  exists X1_dig, y1_dig, X1_let, y1_let.
  split_and!; try done.
  - by eapply take_rows_subseteq.
  - by eapply take_rows_subseteq.
  - simpl. by rewrite length_app, HlXD, HlXL.
  - simpl. by rewrite length_app, length_fmap, HlyD, HlyL.
Qed.

Lemma subsample_counts_witness :
  ∃ X1_dig y1_dig X1_let y1_let,
    subsample ntr_dig (seq 0 5000) (replicate 5000 [0; 255]) (replicate 5000 3)
      = Ok (X1_dig, y1_dig)
    ∧ subsample ntr_let (seq 0 1200) (replicate 1200 [255; 0]) (replicate 1200 11)
      = Ok (X1_let, y1_let)
    ∧ length X1_dig = 5000%nat ∧ length X1_let = 1000%nat
    ∧ length (fst (merge X1_dig X1_let y1_dig y1_let)) = (5000 + 1000)%nat.
Proof.
  destruct (subsample_counts (replicate 5000 [0; 255]) (replicate 1200 [255; 0])
              (replicate 5000 3) (replicate 1200 11)
              (seq 0 5000) (seq 0 1200) ntr_dig ntr_let)
    as (X1_dig & y1_dig & X1_let & y1_let & HD & HL & HlD & _ & HlL & _ & _ & _
        & _ & _ & _ & _ & _ & _ & HX & _).
  - left. reflexivity.
  - by rewrite !length_replicate.
  - by rewrite !length_replicate.
  - by rewrite length_replicate.
  - by rewrite length_replicate.
  - rewrite length_replicate. unfold ntr_dig. lia.
  - rewrite length_replicate. unfold ntr_let. lia.
  - exists X1_dig, y1_dig, X1_let, y1_let. by split_and!.
Defined.

(** ** Merging and the predefined split *)

Lemma elem_of_classes l : l ∈ classes ↔ 0 ≤ l ≤ 10.
Proof.
  unfold classes. rewrite elem_of_list_to_set.
  change (range 11) with [0; 1; 2; 3; 4; 5; 6; 7; 8; 9; 10].
  rewrite !elem_of_cons, elem_of_nil. lia.
Qed.

Lemma size_classes : size classes = 11%nat.
Proof.
  unfold classes. rewrite size_list_to_set.
  - reflexivity.
  - unfold range. apply (NoDup_fmap_2 _). apply NoDup_seq.
Qed.

(** C3: after the merge step the labels lie in eleven classes.  A sample
    that comes from the digit arrays stays at its position with its own
    label, a digit in 0..9; a sample that comes from the letter arrays
    follows the digits and is labelled 10; every label of the merged vector
    is one of the eleven classes 0..10, and all eleven occur as soon as each
    digit and one letter are among the samples. *)
Theorem merge_eleven_classes {A} (X1_dig X1_let : list A) (y1_dig y1_let : list Z) :
  length X1_dig = length y1_dig →
  length X1_let = length y1_let →
  Forall (λ l, 0 ≤ l ≤ 9) y1_dig →
  let X := fst (merge X1_dig X1_let y1_dig y1_let) in
  let y := snd (merge X1_dig X1_let y1_dig y1_let) in
  length X = length y
  ∧ (∀ i x, X1_dig !! i = Some x →
       X !! i = Some x ∧ ∃ l, y1_dig !! i = Some l ∧ y !! i = Some l ∧ 0 ≤ l ≤ 9)
  ∧ (∀ j x, X1_let !! j = Some x →
       X !! (length X1_dig + j)%nat = Some x ∧ y !! (length X1_dig + j)%nat = Some 10)
  ∧ (∀ l, l ∈ y → l ∈ classes)
  ∧ size classes = 11%nat
  ∧ ((∀ d, 0 ≤ d ≤ 9 → d ∈ y1_dig) → y1_let ≠ [] → list_to_set y = classes).
Proof.
  intros HlenD HlenL Hdig. simpl.
  assert (∀ l, l ∈ y1_dig ++ ((λ _, 10) <$> y1_let) → 0 ≤ l ≤ 10) as Hrange.
  { intros l [Hl|Hl]%elem_of_app.
    - rewrite Forall_forall in Hdig. specialize (Hdig l Hl). lia.
    - apply list_elem_of_fmap in Hl as (? & -> & _). lia. }
  split_and!.
  - by rewrite !length_app, length_fmap, HlenD, HlenL.
  - intros i x Hi. pose proof (lookup_lt_Some _ _ _ Hi) as Hlt.
    split; [by rewrite lookup_app_l|].
    rewrite HlenD in Hlt. destruct (lookup_lt_is_Some_2 y1_dig i Hlt) as [l Hl].
    exists l. split; [done|]. split; [by rewrite lookup_app_l|].
    rewrite Forall_forall in Hdig. eapply Hdig, list_elem_of_lookup_2, Hl.
  - intros j x Hj. pose proof (lookup_lt_Some _ _ _ Hj) as Hlt. split.
    + rewrite lookup_app_r by lia. by replace (length X1_dig + j - length X1_dig)%nat
        with j by lia.
    + rewrite HlenD, lookup_app_r by lia.
      replace (length y1_dig + j - length y1_dig)%nat with j by lia.
      rewrite list_lookup_fmap. rewrite HlenL in Hlt.
      by destruct (lookup_lt_is_Some_2 y1_let j Hlt) as [l ->].
  - intros l Hl. apply elem_of_classes. by apply Hrange.
  - apply size_classes.
  - intros Hall Hlet. apply set_eq. intros l.
    rewrite elem_of_list_to_set, elem_of_classes. split; [apply Hrange|].
    intros Hl. rewrite elem_of_app.
    destruct (decide (l = 10)) as [->|].
    + right. destruct y1_let as [|l0 ?]; [done|]. rewrite fmap_cons. left.
    + left. apply Hall. lia.
Qed.

Lemma merge_eleven_classes_witness :
  let X := fst (merge ["d0"; "d7"] ["a"; "z"] [0; 7] [1; 26]) in
  let y := snd (merge ["d0"; "d7"] ["a"; "z"] [0; 7] [1; 26]) in
  y = [0; 7; 10; 10]
  ∧ length X = length y
  ∧ (∀ l, l ∈ y → l ∈ classes).
Proof.
  destruct (merge_eleven_classes ["d0"; "d7"] ["a"; "z"] [0; 7] [1; 26])
    as (Hlen & _ & _ & Hcls & _).
  - reflexivity.
  - reflexivity.
  - repeat constructor; lia.
  - split_and!; [reflexivity | exact Hlen | exact Hcls].
Defined.

Lemma remove_dups_replicate (n : nat) (x : Z) :
  remove_dups (replicate (S n) x) = [x].
Proof.
  induction n as [|n IH]; [done|].
  change (remove_dups (replicate (S (S n)) x))
    with (if decide_rel elem_of x (replicate (S n) x)
          then remove_dups (replicate (S n) x)
          else x :: remove_dups (replicate (S n) x)).
  destruct (decide_rel elem_of x (replicate (S n) x)) as [_|Hnot]; [exact IH|].
  destruct Hnot. simpl. left.
Qed.

Lemma unique_folds_test_fold {A} (Xtr1 Xts1 : list A) :
  Xts1 ≠ [] → PredefinedSplit.unique_folds (test_fold Xtr1 Xts1) = [0].
Proof.
  intros Hts. unfold PredefinedSplit.unique_folds, test_fold.
  rewrite filter_app.
  assert (∀ n, filter (λ f, f ≠ -1) (replicate n (-1)) = []) as ->.
  { induction n as [|n IH]; [done|]. simpl. by rewrite filter_cons_False by auto. }
  assert (∀ n, filter (λ f, f ≠ -1) (replicate n 0) = replicate n 0) as ->.
  { induction n as [|n IH]; [done|]. simpl. by rewrite filter_cons_True, IH by done. }
  destruct Xts1 as [|x Xts1]; [done|]. simpl length.
  by rewrite app_nil_l, remove_dups_replicate.
Qed.

(** C6: [test_fold] marks every sample of the training data with -1 and
    every sample of the test data with 0, at the position the sample has in
    the combined data; and for a non-empty test set the predefined split has
    exactly one fold, whose held-out positions are those of the test rows
    and whose training positions are those of the training rows. *)
Theorem test_fold_single_split {A} (Xtr1 Xts1 : list A) (ytr yts : list Z) :
  Xts1 ≠ [] →
  let X := fst (combine Xtr1 Xts1 ytr yts) in
  let tf := test_fold Xtr1 Xts1 in
  length tf = length X
  ∧ (∀ i x, Xtr1 !! i = Some x → X !! i = Some x ∧ tf !! i = Some (-1))
  ∧ (∀ j x, Xts1 !! j = Some x →
       X !! (length Xtr1 + j)%nat = Some x ∧ tf !! (length Xtr1 + j)%nat = Some 0)
  ∧ PredefinedSplit.split tf = [(seq 0 (length Xtr1), seq (length Xtr1) (length Xts1))].
Proof.
  intros Hts. simpl. split_and!.
  - unfold test_fold. by rewrite !length_app, !length_replicate.
  - intros i x Hi. pose proof (lookup_lt_Some _ _ _ Hi) as Hlt. unfold test_fold.
    split; [by rewrite lookup_app_l|].
    rewrite lookup_app_l by (by rewrite length_replicate).
    by apply lookup_replicate_2.
  - intros j x Hj. pose proof (lookup_lt_Some _ _ _ Hj) as Hlt. unfold test_fold. split.
    + rewrite lookup_app_r by lia.
      by replace (length Xtr1 + j - length Xtr1)%nat with j by lia.
    + rewrite lookup_app_r by (rewrite length_replicate; lia).
      rewrite length_replicate.
      replace (length Xtr1 + j - length Xtr1)%nat with j by lia.
      by apply lookup_replicate_2.
  - unfold PredefinedSplit.split. rewrite unique_folds_test_fold by done.
    unfold where_, test_fold. simpl. rewrite !where_from_app, !length_replicate.
    rewrite (where_from_replicate_true _ _ _ (-1)) by done.
    rewrite (where_from_replicate_false _ _ _ 0) by done.
    rewrite (where_from_replicate_false _ _ _ (-1)) by done.
    rewrite (where_from_replicate_true _ _ _ 0) by done.
    by rewrite app_nil_r.
Qed.

Lemma test_fold_single_split_witness :
  let tf := test_fold ["r0"; "r1"; "r2"] ["s0"; "s1"] in
  tf = [-1; -1; -1; 0; 0]
  ∧ PredefinedSplit.split tf = [([0; 1; 2]%nat, [3; 4]%nat)].
Proof.
  destruct (test_fold_single_split ["r0"; "r1"; "r2"] ["s0"; "s1"] [5; 6; 10] [7; 10])
    as (_ & _ & _ & Hsplit).
  - discriminate.
  - split; [reflexivity | exact Hsplit].
Defined.

(** * Further properties of the code cells *)

(** ** [load_emnist] on arbitrary and on malformed files *)

(** X1: whatever the file holds, a list returned by [load_emnist] has four
    entries, and each label vector is one-dimensional, of integers, with one
    entry per row of the feature array returned with it; the status line
    names these two row counts. *)
Theorem load_emnist_result_shape parse_mat path w r w' :
  load_emnist parse_mat path w = (Ok r, w') →
  ∃ Xtr Xts ytr yts ntr nts,
    r = [Xtr; Xts; ytr; yts]
    ∧ label_vector_for ytr Xtr ∧ label_vector_for yts Xts
    ∧ Np.shape0 Xtr = Ok ntr ∧ Np.shape0 Xts = Ok nts
    ∧ stdout w' = stdout w ++ [loaded_message ntr nts].
Proof.
  intros (c & mat & Xtr & Xts & ytr & yts & ntr & nts & _ & _ & -> & _ & _
          & Hytr & Hyts & Hntr & Hnts & ->)%load_emnist_result.
  exists Xtr, Xts, ytr, yts, ntr, nts. by split_and!.
Qed.

Lemma load_emnist_result_shape_witness :
  ∃ Xtr Xts ytr yts ntr nts,
    [Sample.train_images; Sample.test_images;
     Np.NumArr Np.Int64 [2%nat] [7; 3]; Np.NumArr Np.Int64 [1%nat] [4]]
      = [Xtr; Xts; ytr; yts]
    ∧ label_vector_for ytr Xtr ∧ label_vector_for yts Xts
    ∧ Np.shape0 Xtr = Ok ntr ∧ Np.shape0 Xts = Ok nts
    ∧ ["2 training samples, 1 test samples loaded"]
      = stdout Sample.w0 ++ [loaded_message ntr nts].
Proof.
  apply (load_emnist_result_shape Sample.parse "matlab/emnist-digits.mat" Sample.w0
           _ (World Sample.disk ∅ ["2 training samples, 1 test samples loaded"] [])).
  by vm_compute.
Defined.

(** X2: on a file with the EMNIST layout, [load_emnist] raises [ValueError]
    exactly when a partition stores a number of labels different from the
    number of its feature rows; it then prints nothing, also when the
    training partition was read without fault and only the test partition is
    uneven. *)
Theorem load_emnist_uneven_iff
    parse_mat path w contents mat Xtr Xts ntr nts str sts
    dtr dts ltr lts data_tr data_ts :
  files w !! path = Some contents →
  parse_mat contents = Ok mat →
  emnist_layout mat Xtr (Np.NumArr dtr ltr data_tr) Xts (Np.NumArr dts lts data_ts) →
  Np.shape Xtr = ntr :: str →
  Np.shape Xts = nts :: sts →
  ltr ≠ [] → lts ≠ [] →
  (Np.size_of ltr ≠ ntr ∨ Np.size_of lts ≠ nts)
  ↔ load_emnist parse_mat path w = (Raise ValueError, w).
Proof.
  intros Hfile Hparse Hlay HXtr HXts Hltr Hlts.
  rewrite load_emnist_unfold. unfold loadmat.
  rewrite (open_file_found _ _ _ Hfile), Hparse.
  destruct (partition_field_layout _ _ _ _ _ Hlay) as (-> & -> & -> & ->).
  rewrite (slice_all_array _ _ _ HXtr), (shape0_shape _ _ _ HXtr).
  rewrite (slice_all_array _ _ _ HXts), (shape0_shape _ _ _ HXts).
  destruct ltr as [|l1 ltr']; [done|]. destruct lts as [|l2 lts']; [done|].
  cbn [Np.slice_all and_then].
  unfold reshape_to, Np.reshape, Np.size. cbn [Np.shape].
  rewrite !size_of_singleton.
  destruct (decide (Np.size_of (l1 :: ltr') = ntr)) as [Htr|Htr];
    cbn [and_then Np.astype_int].
  - destruct (decide (Np.size_of (l2 :: lts') = nts)) as [Hts|Hts];
      cbn [and_then Np.astype_int].
    + split; [intros [?|?]; done | done].
    + split; [done | auto].
  - split; [done | auto].
Qed.

Lemma load_emnist_uneven_iff_witness :
  (Np.size_of [3; 1]%nat ≠ 2%nat ∨ Np.size_of [1; 1]%nat ≠ 1%nat)
  ↔ load_emnist Sample.parse "matlab/uneven.mat" Sample.w0
    = (Raise ValueError, Sample.w0).
Proof.
  apply (load_emnist_uneven_iff Sample.parse "matlab/uneven.mat" Sample.w0
           "uneven" Sample.uneven_mat Sample.train_images Sample.test_images
           2 1 [3%nat] [3%nat] Np.UInt8 Np.UInt8 [3; 1]%nat [1; 1]%nat [7; 3; 1] [4]).
  - reflexivity.
  - reflexivity.
  - by econstructor.
  - reflexivity.
  - reflexivity.
  - discriminate.
  - discriminate.
Defined.

(** X3: a MATLAB file that parses but holds no variable named [dataset] makes
    [load_emnist] raise [KeyError], whatever else the file holds, and
    nothing is printed. *)
Theorem load_emnist_no_dataset parse_mat path w contents mat :
  files w !! path = Some contents →
  parse_mat contents = Ok mat →
  mat !! "dataset" = None →
  load_emnist parse_mat path w = (Raise KeyError, w).
Proof.
  intros Hfile Hparse Hkey. apply load_emnist_raises_iff.
  apply Fail_Xtr with (contents := contents) (mat := mat);
    [by apply open_file_found | done |].
  unfold partition_field, dict_getitem. by rewrite Hkey.
Qed.

Lemma load_emnist_no_dataset_witness :
  load_emnist (λ _, Ok {[ "images" := Sample.train_images ]}) "matlab/other.mat"
    (World {[ "matlab/other.mat" := "good" ]} ∅ [] [])
  = (Raise KeyError, World {[ "matlab/other.mat" := "good" ]} ∅ [] []).
Proof.
  apply (load_emnist_no_dataset
           (λ _, Ok {[ "images" := Sample.train_images ]}) "matlab/other.mat"
           (World {[ "matlab/other.mat" := "good" ]} ∅ [] [])
           "good" {[ "images" := Sample.train_images ]}); reflexivity.
Defined.

(** X4: a file whose [dataset] record holds a training partition but no second
    field makes [load_emnist] raise [IndexError] when it reaches the test
    data: the training arrays already read are dropped and nothing is
    printed. *)
Theorem load_emnist_no_test_partition
    parse_mat path w contents mat Xtr ntr str dtr ltr data_tr rest_tr more_tr more :
  files w !! path = Some contents →
  parse_mat contents = Ok mat →
  mat !! "dataset" =
    Some (Np.StructArr [1; 1]%nat
           ([Np.StructArr [1; 1]%nat
               ((Xtr :: Np.NumArr dtr ltr data_tr :: rest_tr) :: more_tr)] :: more)) →
  Np.shape Xtr = ntr :: str →
  ltr ≠ [] → Np.size_of ltr = ntr →
  load_emnist parse_mat path w = (Raise IndexError, w).
Proof.
  intros Hfile Hparse Hds HXtr Hltr Hntr.
  rewrite load_emnist_unfold. unfold loadmat.
  rewrite (open_file_found _ _ _ Hfile), Hparse.
  unfold partition_field, dict_getitem. rewrite Hds, !record_field.
  simpl.
  rewrite (slice_all_array _ _ _ HXtr), (shape0_shape _ _ _ HXtr).
  destruct ltr as [|l1 ltr']; [done|].
  cbn [and_then].
  unfold reshape_to, Np.reshape, Np.size. cbn [Np.shape].
  rewrite size_of_singleton, decide_True by done.
  reflexivity.
Qed.

Lemma load_emnist_no_test_partition_witness :
  load_emnist
    (λ _, Ok {[ "dataset" :=
       Np.StructArr [1; 1]%nat
         [[Sample.partition Sample.train_images Sample.train_labels 2]] ]})
    "train-only.mat" (World {[ "train-only.mat" := "bytes" ]} ∅ [] [])
  = (Raise IndexError, World {[ "train-only.mat" := "bytes" ]} ∅ [] []).
Proof.
  apply (load_emnist_no_test_partition _ "train-only.mat"
           (World {[ "train-only.mat" := "bytes" ]} ∅ [] []) "bytes"
           {[ "dataset" :=
              Np.StructArr [1; 1]%nat
                [[Sample.partition Sample.train_images Sample.train_labels 2]] ]}
           Sample.train_images 2 [3%nat] Np.UInt8 [2; 1]%nat [7; 3]
           [Np.NumArr Np.Int64 [2; 1]%nat (replicate 2 0)] [] []).
  - reflexivity.
  - reflexivity.
  - reflexivity.
  - reflexivity.
  - discriminate.
  - reflexivity.
Defined.

(** ** Cells 8 and 10 *)

Lemma load_emnist_same_files parse_mat path w1 w2 :
  files w1 = files w2 →
  fst (load_emnist parse_mat path w1) = fst (load_emnist parse_mat path w2).
Proof.
  intros Hfiles. rewrite !load_emnist_unfold. unfold loadmat. rewrite Hfiles.
  destruct (open_file (files w2) path) as [c|]; [|done].
  destruct (parse_mat c) as [mat|]; [|done].
  repeat match goal with
         | |- context [match ?x with _ => _ end] => destruct x
         end; done.
Qed.

(** A cell [a, b, c, d = load_emnist(path)]: when it completes it has bound
    the four names to the four arrays and printed the status line; otherwise
    it raises what [load_emnist] raises and binds nothing. *)
Lemma load_cell_ok parse_mat path a b c d w w' :
  bind (load_emnist parse_mat path) (unpack4 a b c d) w = (Ok (), w') →
  ∃ Xtr Xts ytr yts ntr nts,
    load_emnist parse_mat path w =
      (Ok [Xtr; Xts; ytr; yts],
       World (files w) (globals w) (stdout w ++ [loaded_message ntr nts]) (figure w))
    ∧ label_vector_for ytr Xtr ∧ label_vector_for yts Xts
    ∧ Np.shape0 Xtr = Ok ntr ∧ Np.shape0 Xts = Ok nts
    ∧ w' = World (files w)
                 (<[d := yts]> (<[c := ytr]> (<[b := Xts]> (<[a := Xtr]> (globals w)))))
                 (stdout w ++ [loaded_message ntr nts]) (figure w).
Proof.
  unfold bind.
  destruct (load_emnist parse_mat path w) as [[r|e] w1] eqn:Hrun; [|discriminate].
  apply load_emnist_result in Hrun
    as (cts & mat & Xtr & Xts & ytr & yts & ntr & nts & _ & _ & -> & _ & _
        & Hytr & Hyts & Hntr & Hnts & ->).
  intros [= <-]. exists Xtr, Xts, ytr, yts, ntr, nts. by split_and!.
Qed.

(** X5: cell 8 either completes, and then the globals are those it found with
    [Xtr_dig], [Xts_dig], [ytr_dig] and [yts_dig] bound to the arrays of the
    default file, each label vector matching its feature array and every
    other global as it was; or it raises the exception of [load_emnist] and
    leaves the world untouched.  The unpacking itself never fails. *)
Theorem cell_8_outcome parse_mat w :
  (∀ w', cell_8 parse_mat w = (Ok (), w') →
     ∃ Xtr Xts ytr yts,
       fst (load_emnist parse_mat "matlab/emnist-digits.mat" w) = Ok [Xtr; Xts; ytr; yts]
       ∧ globals w' = <["yts_dig" := yts]> (<["ytr_dig" := ytr]>
                        (<["Xts_dig" := Xts]> (<["Xtr_dig" := Xtr]> (globals w))))
       ∧ label_vector_for ytr Xtr ∧ label_vector_for yts Xts
       ∧ files w' = files w ∧ figure w' = figure w
       ∧ (∀ name, name ∉ ["Xtr_dig"; "Xts_dig"; "ytr_dig"; "yts_dig"] →
            globals w' !! name = globals w !! name))
  ∧ (∀ e w', cell_8 parse_mat w = (Raise e, w') →
       w' = w ∧ load_emnist parse_mat "matlab/emnist-digits.mat" w = (Raise e, w)).
Proof.
  split.
  - intros w' (Xtr & Xts & ytr & yts & ntr & nts & Hrun & Hytr & Hyts & _ & _ & ->)
             %load_cell_ok.
    exists Xtr, Xts, ytr, yts. unfold load_emnist_default in Hrun.
    rewrite Hrun. split_and!; try done.
    intros name Hname. simpl.
    rewrite !not_elem_of_cons in Hname. destruct Hname as (? & ? & ? & ? & _).
    by rewrite !lookup_insert_ne.
  - intros e w'. apply load_cell_raise.
Qed.

Lemma cell_8_outcome_witness :
  ∃ Xtr Xts ytr yts,
    fst (load_emnist Sample.parse "matlab/emnist-digits.mat" Sample.w0)
      = Ok [Xtr; Xts; ytr; yts]
    ∧ ytr = Np.NumArr Np.Int64 [2%nat] [7; 3]
    ∧ label_vector_for ytr Xtr.
Proof.
  destruct (cell_8_outcome Sample.parse Sample.w0) as [Hok _].
  destruct (Hok (snd (cell_8 Sample.parse Sample.w0)))
    as (Xtr & Xts & ytr & yts & Hrun & _ & Hytr & _).
  - by vm_compute.
  - exists Xtr, Xts, ytr, yts. split_and!; [done | | done].
    vm_compute in Hrun. by simplify_eq.
Defined.

(** X6: cells 8 and 10 run one after the other: when both complete, all eight
    names are bound, the digit arrays are still those of the first file
    after the second call, each name holds what [load_emnist] returns for its
    file in the world the cells started from, two status lines have been
    printed in this order, the first naming the row counts of the digit
    arrays and the second those of the letter arrays, and the files are
    unchanged. *)
Theorem cells_8_10_compose parse_mat w w' :
  (cell_8 parse_mat ;;; cell_10 parse_mat) w = (Ok (), w') →
  ∃ Xtr_dig Xts_dig ytr_dig yts_dig Xtr_let Xts_let ytr_let yts_let line_dig line_let,
    fst (load_emnist parse_mat "matlab/emnist-digits.mat" w)
      = Ok [Xtr_dig; Xts_dig; ytr_dig; yts_dig]
    ∧ fst (load_emnist parse_mat "matlab/emnist-letters.mat" w)
      = Ok [Xtr_let; Xts_let; ytr_let; yts_let]
    ∧ globals w' !! "Xtr_dig" = Some Xtr_dig ∧ globals w' !! "Xts_dig" = Some Xts_dig
    ∧ globals w' !! "ytr_dig" = Some ytr_dig ∧ globals w' !! "yts_dig" = Some yts_dig
    ∧ globals w' !! "Xtr_let" = Some Xtr_let ∧ globals w' !! "Xts_let" = Some Xts_let
    ∧ globals w' !! "ytr_let" = Some ytr_let ∧ globals w' !! "yts_let" = Some yts_let
    ∧ label_vector_for ytr_dig Xtr_dig ∧ label_vector_for yts_dig Xts_dig
    ∧ label_vector_for ytr_let Xtr_let ∧ label_vector_for yts_let Xts_let
    ∧ stdout w' = stdout w ++ [line_dig; line_let]
    ∧ files w' = files w
    ∧ ∃ ntr_d nts_d ntr_l nts_l,
        Np.shape0 Xtr_dig = Ok ntr_d ∧ Np.shape0 Xts_dig = Ok nts_d
        ∧ Np.shape0 Xtr_let = Ok ntr_l ∧ Np.shape0 Xts_let = Ok nts_l
        ∧ line_dig = loaded_message ntr_d nts_d
        ∧ line_let = loaded_message ntr_l nts_l.
Proof.
  unfold bind at 1.
  destruct (cell_8 parse_mat w) as [[[]|e] w1] eqn:H8; [|discriminate].
  intros H10.
  apply load_cell_ok in H8
    as (Xd & Xsd & yd & ysd & nd & nsd & Hrun8 & Hyd & Hysd & Hnd & Hnsd & ->).
  apply load_cell_ok in H10
    as (Xl & Xsl & yl & ysl & nl & nsl & Hrun10 & Hyl & Hysl & Hnl & Hnsl & ->).
  exists Xd, Xsd, yd, ysd, Xl, Xsl, yl, ysl,
    (loaded_message nd nsd), (loaded_message nl nsl).
  unfold load_emnist_default in Hrun8. rewrite Hrun8.
  rewrite (load_emnist_same_files parse_mat "matlab/emnist-letters.mat" w
             (World (files w)
                (<["yts_dig" := ysd]> (<["ytr_dig" := yd]>
                   (<["Xts_dig" := Xsd]> (<["Xtr_dig" := Xd]> (globals w)))))
                (stdout w ++ [loaded_message nd nsd]) (figure w))) by done.
  rewrite Hrun10. simpl.
  split_and!; try done.
  1-8: by simplify_map_eq.
  - by rewrite <- app_assoc.
  - by exists nd, nsd, nl, nsl.
Qed.

Lemma cells_8_10_compose_witness :
  let w := World (<["matlab/emnist-letters.mat" := "good"]> Sample.disk) ∅ [] [] in
  let w' := snd ((cell_8 Sample.parse ;;; cell_10 Sample.parse) w) in
  ∃ Xtr_dig ytr_dig line_dig line_let,
    globals w' !! "Xtr_dig" = Some Xtr_dig
    ∧ globals w' !! "ytr_dig" = Some ytr_dig
    ∧ label_vector_for ytr_dig Xtr_dig
    ∧ stdout w' = [] ++ [line_dig; line_let].
Proof.
  intros w w'.
  destruct (cells_8_10_compose Sample.parse w w')
    as (Xd & Xsd & yd & ysd & Xl & Xsl & yl & ysl & l1 & l2 & _ & _ & HXd & _ & Hyd
        & _ & _ & _ & _ & _ & Hlab & _ & _ & _ & Hout & _ & _).
  - by vm_compute.
  - exists Xd, yd, l1, l2. by split_and!.
Defined.

(** ** [plt_digit]: what is drawn *)

(** X7: [plt_digit] only ever adds to the figure: whatever its arguments and
    whether it returns or raises, the files, the globals and the printed
    output are unchanged, the calls already on the figure stay, and at most
    four calls are added. *)
Theorem plt_digit_only_draws x y w :
  let w' := snd (plt_digit x y w) in
  files w' = files w ∧ globals w' = globals w ∧ stdout w' = stdout w
  ∧ ∃ added, figure w' = figure w ++ added ∧ (length added ≤ 4)%nat.
Proof.
  assert (∀ fig : list plot_cmd, ∃ added, fig = fig ++ added ∧ (length added ≤ 4)%nat)
    as Hnone.
  { intros fig. exists []. rewrite app_nil_r. split; [done | simpl; lia]. }
  simpl. rewrite plt_digit_unfold.
  destruct (obj_reshape x 28 28) as [xsq|e]; simpl; [|by split_and!].
  destruct (Plt.imshow (Np.T xsq) "Greys_r" w) as [[[]|e] w1] eqn:Hi;
    [|apply imshow_raise_frame in Hi as ->; by split_and!].
  unfold drawn.
  destruct (ne_None y) as [[|]|e]; [destruct (format_d y) as [t|e]|..]; simpl;
    split_and!; try done; eexists; (split; [reflexivity | simpl; lia]).
Qed.

(** X8: a label is drawn as the title whenever one is given, the label 0
    included, since the test is [y != None] and not the truth of [y]; without
    a label no title is set.  In both cases the image and the two empty tick
    lists come first. *)
Theorem plt_digit_title dt sh data w :
  Np.size_of sh = 784%nat →
  let img := Imshow (Np.T (Np.NumArr dt [28; 28]%nat data)) "Greys_r" in
  (∀ z, ∃ w', plt_digit (PVal (Np.NumArr dt sh data)) (PVal (Np.Num z)) w = (Ok (), w')
              ∧ figure w' = figure w ++ [img; Xticks []; Yticks []; Title (pretty z)])
  ∧ (∃ w', plt_digit (PVal (Np.NumArr dt sh data)) (PVal (Np.Num 0)) w = (Ok (), w')
           ∧ figure w' = figure w ++ [img; Xticks []; Yticks []; Title "0"])
  ∧ (∃ w', plt_digit (PVal (Np.NumArr dt sh data)) PNone w = (Ok (), w')
           ∧ figure w' = figure w ++ [img; Xticks []; Yticks []]).
Proof.
  intros Hsize. simpl. split_and!.
  - intros z. rewrite plt_digit_numeric by done. eauto.
  - rewrite plt_digit_numeric by done. eauto.
  - rewrite plt_digit_numeric by done. eauto.
Qed.

Lemma plt_digit_title_witness :
  ∃ w', plt_digit (PVal (Np.NumArr Np.UInt8 [784%nat] (replicate 784 0)))
          (PVal (Np.Num 7)) Sample.w0 = (Ok (), w')
        ∧ figure w' = [] ++
            [Imshow (Np.T (Np.NumArr Np.UInt8 [28; 28]%nat (replicate 784 0))) "Greys_r";
             Xticks []; Yticks []; Title "7"].
Proof.
  destruct (plt_digit_title Np.UInt8 [784%nat] (replicate 784 0) Sample.w0)
    as (Hlabel & _ & _).
  - reflexivity.
  - exact (Hlabel 7).
Defined.

(** *** The transpose of a row-major buffer of [nrow] by [ncol] entries *)

Lemma omap_total {A B} (f : A → option B) (l : list A) :
  Forall (λ a, is_Some (f a)) l → Some <$> omap f l = f <$> l.
Proof.
  induction 1 as [|a l [b Hb] _ IH]; [done|].
  csimpl. rewrite Hb. csimpl. by rewrite IH.
Qed.

Lemma column_lookup {A} (data : list A) (nrow ncol i j : nat) :
  length data = (nrow * ncol)%nat → (i < nrow)%nat → (j < ncol)%nat →
  length (Np.column ncol j data nrow) = nrow
  ∧ Np.column ncol j data nrow !! i = data !! (i * ncol + j)%nat.
Proof.
  intros Hlen Hi Hj. unfold Np.column.
  assert (Some <$> omap (λ i, data !! (i * ncol + j)%nat) (seq 0 nrow)
          = (λ i, data !! (i * ncol + j)%nat) <$> seq 0 nrow) as Hcol.
  { apply omap_total, Forall_forall. intros k Hk%elem_of_seq.
    apply lookup_lt_is_Some. rewrite Hlen. nia. }
  split.
  - apply (f_equal length) in Hcol. by rewrite !length_fmap, length_seq in Hcol.
  - apply (f_equal (λ l, l !! i)) in Hcol.
    rewrite !list_lookup_fmap, lookup_seq_lt in Hcol by done.
    destruct (omap _ _ !! i) as [x|]; by simplify_eq/=.
Qed.

Lemma transpose2_lookup {A} (data : list A) (nrow ncol i j : nat) :
  length data = (nrow * ncol)%nat → (i < nrow)%nat → (j < ncol)%nat →
  Np.transpose2 nrow ncol data !! (j * nrow + i)%nat = data !! (i * ncol + j)%nat.
Proof.
  intros Hlen Hi Hj.
  assert (is_Some (data !! (i * ncol + j)%nat)) as [x Hx].
  { apply lookup_lt_is_Some. rewrite Hlen. nia. }
  rewrite Hx. unfold Np.transpose2.
  apply (join_lookup_Some_same_length' nrow); [|done|].
  - apply Forall_fmap, Forall_forall. intros k Hk%elem_of_seq. simpl.
    destruct nrow as [|n]; [lia|].
    apply (column_lookup data (S n) ncol 0 k); [done | lia | lia].
  - exists (Np.column ncol j data nrow). split.
    + by rewrite list_lookup_fmap, lookup_seq_lt.
    + rewrite <- Hx. by apply column_lookup.
Qed.

(** X9: the image that [plt_digit] hands to [imshow] is the transpose of the
    28-by-28 reading of [x]: its pixel in row [i] and column [j] is entry
    [28*j + i] of [x]. *)
Theorem plt_digit_shows_transpose dt sh data y w i j :
  Np.size_of sh = 784%nat → length data = 784%nat → (i < 28)%nat → (j < 28)%nat →
  ∃ pixels rest,
    figure (snd (plt_digit (PVal (Np.NumArr dt sh data)) y w))
      = figure w ++ Imshow (Np.NumArr dt [28; 28]%nat pixels) "Greys_r" :: rest
    ∧ length pixels = 784%nat
    ∧ pixels !! (28 * i + j)%nat = data !! (28 * j + i)%nat.
Proof.
  intros Hsize Hlen Hi Hj.
  exists (Np.transpose2 28 28 data).
  assert (Np.transpose2 28 28 data !! (28 * i + j)%nat = data !! (28 * j + i)%nat)
    as Hpix.
  { replace (28 * i + j)%nat with (i * 28 + j)%nat by lia.
    replace (28 * j + i)%nat with (j * 28 + i)%nat by lia.
    by apply transpose2_lookup. }
  assert (length (Np.transpose2 28 28 data) = 784%nat) as Hplen.
  { unfold Np.transpose2. rewrite length_join.
    rewrite (sum_list_fmap_same 28).
    - by rewrite length_fmap, length_seq.
    - apply Forall_fmap, Forall_forall. intros k Hk%elem_of_seq. simpl.
      apply (column_lookup data 28 28 0 k); [done | lia | lia]. }
  rewrite plt_digit_numeric by done. cbn zeta. unfold drawn.
  change (Np.T (Np.NumArr dt [28; 28]%nat data))
    with (Np.NumArr dt [28; 28]%nat (Np.transpose2 28 28 data)).
  destruct (ne_None y) as [[|]|e]; [destruct (format_d y) as [t|e]|..]; simpl;
    eexists; split_and!; done.
Qed.

Lemma plt_digit_shows_transpose_witness :
  ∃ pixels rest,
    figure (snd (plt_digit (PVal (Np.NumArr Np.UInt8 [784%nat]
                                    ((λ k, k `mod` 256) <$> seqZ 0 784)))
                   PNone Sample.w0))
      = figure Sample.w0 ++ Imshow (Np.NumArr Np.UInt8 [28; 28]%nat pixels) "Greys_r" :: rest
    ∧ length pixels = 784%nat
    ∧ pixels !! (28 * 1 + 2)%nat
      = ((λ k, k `mod` 256) <$> seqZ 0 784) !! (28 * 2 + 1)%nat.
Proof.
  apply (plt_digit_shows_transpose Np.UInt8 [784%nat]
           ((λ k, k `mod` 256) <$> seqZ 0 784) PNone Sample.w0 1 2).
  - reflexivity.
  - reflexivity.
  - lia.
  - lia.
Defined.

(** ** The plotting cell: every iteration is out of range *)

(** X10: none of the eight argument triples that the loop of cell 14 passes to
    [plt.subplot] is accepted by Matplotlib: the row count [i] or the column
    count [j] is 0, or the index [i*4 + j] exceeds the [i*j] places of the
    grid.  No iteration of the loop could plot, whichever came first. *)
Theorem cell_14_no_valid_subplot i j w :
  i ∈ range 2 → j ∈ range 4 →
  Plt.subplot i j (i * 4 + j) w = (Raise ValueError, w).
Proof.
  intros Hi Hj. unfold Plt.subplot.
  change (range 2) with [0; 1] in Hi. change (range 4) with [0; 1; 2; 3] in Hj.
  rewrite !elem_of_cons, elem_of_nil in Hi. rewrite !elem_of_cons, elem_of_nil in Hj.
  rewrite decide_False; [done|]. lia.
Qed.

Lemma cell_14_no_valid_subplot_witness :
  Plt.subplot 1 3 (1 * 4 + 3) Sample.w0 = (Raise ValueError, Sample.w0).
Proof.
  apply (cell_14_no_valid_subplot 1 3 Sample.w0).
  - change (range 2) with [0; 1]. rewrite !elem_of_cons. auto.
  - change (range 4) with [0; 1; 2; 3]. rewrite !elem_of_cons. auto.
Defined.
